(** * Social controller (src/controllers/social.ts): feed, explore and
      post/connection mutations over the Post and User collections.

    The handlers are embedded as functions from the request and the
    database contents to a response and the new database contents.  The
    document store is modelled as far as the handlers use it: find by id,
    update of one document, the aggregation stages of the feed query and
    the find/sort/limit chain of the explore query. *)

From stdpp Require Import base tactics option list strings sorting.
From Stdlib Require Import ZArith Lia.

Set Default Proof Using "Type".

(** ** JavaScript values the handlers compute with *)

Module Js.

(** A number as the handlers see it: [NaN], or an integer value.  Page
    indexes, page sizes and counts are integers; they are taken in the
    range where doubles are exact. *)
Inductive num : Type :=
| NaN
| Num (z : Z).

#[global] Instance num_eq_dec : EqDecision num.
Proof. solve_decision. Defined.

(** [Number(v)] of a query field that is absent ([undefined]) or holds
    an integer. *)
Definition Number (v : option Z) : num :=
  match v with
  | None => NaN
  | Some z => Num z
  end.

(** [a * b] *)
Definition mul (a b : num) : num :=
  match a, b with
  | Num x, Num y => Num (x * y)
  | _, _ => NaN
  end.

(** [a + b] on numbers *)
Definition add (a b : num) : num :=
  match a, b with
  | Num x, Num y => Num (x + y)
  | _, _ => NaN
  end.

(** [a > b]: false as soon as one side is [NaN]. *)
Definition gt (a b : num) : bool :=
  match a, b with
  | Num x, Num y => bool_decide (y < x)%Z
  | _, _ => false
  end.

(** Truthiness, as tested by [if (v)] and by [v || d]. *)
Class Truthy (A : Type) := truthy : A → bool.

(** [0] and [NaN] are falsy, every other number is truthy. *)
#[global] Instance num_truthy : Truthy num := λ n,
  match n with
  | NaN => false
  | Num z => bool_decide (z ≠ 0%Z)
  end.

(** [null]/[undefined] is falsy; an object (a document) is truthy. *)
#[global] Instance nullable_truthy {A} : Truthy (option A) := λ v,
  match v with
  | None => false
  | Some _ => true
  end.

(** An array is an object: truthy, also when empty. *)
#[global] Instance array_truthy {A} : Truthy (list A) := λ _, true.

(** [a || d] *)
Definition or {A} `{Truthy A} (a d : A) : A :=
  if truthy a then a else d.

(** A route parameter: [undefined] when the segment is absent, else the
    string; [null] is listed because the explore handler compares with
    it. *)
Inductive param : Type :=
| Undefined
| Null
| Str (s : string).

(** [v !== null] *)
Definition strict_ne_null (v : param) : bool :=
  match v with
  | Null => false
  | _ => true
  end.

(** The separator [,] of the tag lists (code point 44). *)
Definition comma : Ascii.ascii := Ascii.ascii_of_nat 44.

(** [s.split(sep)] for a one-character separator: always at least one
    piece, the empty string splits into one empty piece. *)
Fixpoint split (sep : Ascii.ascii) (s : string) : list string :=
  match s with
  | EmptyString => [EmptyString]
  | String c r =>
      if decide (c = sep) then EmptyString :: split sep r
      else match split sep r with
           | h :: t => String c h :: t
           | [] => [String c EmptyString]
           end
  end.

(** [arr.includes(x)] *)
Definition includes (x : string) (arr : list string) : bool :=
  bool_decide (x ∈ arr).

(** [arr.push(x)] *)
Definition push {A} (arr : list A) (x : A) : list A := arr ++ [x].

(** [arr.forEach(body)] where [body] updates an accumulator *)
Definition forEach {A S} (arr : list A) (body : S → A → S) (s : S) : S :=
  fold_left body arr s.

End Js.

(** ** Documents and collections *)

(** An entry of a post's [comments]: [{ userId, comment }]. *)
Record Comment : Type := mkComment {
  c_userId : string;
  c_comment : string
}.

#[global] Instance Comment_eq_dec : EqDecision Comment.
Proof. solve_decision. Defined.

(** What an update call resolves to: a result object. *)
Record UpdateResult : Type := mkUpdateResult {
  n : nat;
  nModified : nat;
  ok : nat
}.

#[global] Instance update_result_truthy : Js.Truthy UpdateResult := λ _, true.

Module Post.

(** Modelled from the spec: the Post schema (models/Post) is not among
    the sources.  Fields as the spec's data model lists them and as the
    feed query projects them; ids are strings, as the handlers compare
    them with the route's [userId : string]. *)
Record doc : Type := mk {
  _id : string;
  userId : string;
  textContent : option string;
  imageContent : option string;
  tags : list string;
  likes : list string;
  comments : list Comment;
  donatable : bool;
  createdAt : Z;
  updatedAt : Z
}.

#[global] Instance doc_eq_dec : EqDecision doc.
Proof. solve_decision. Defined.

Definition collection : Type := list doc.

(** [Post.findById(id)]: the document with that id, or [null]. *)
Fixpoint findById (id : string) (c : collection) : option doc :=
  match c with
  | [] => None
  | d :: c' => if decide (_id d = id) then Some d else findById id c'
  end.

(** One key of an update object.  The value of [textContent] and of
    [imageContent] may be [undefined] ([None]), when the request body
    omits the key. *)
Inductive assignment : Type :=
| SetTextContent (v : option string)
| SetImageContent (v : option string)
| SetTags (v : list string)
| SetLikes (v : list string)
| SetComments (v : list Comment).

(** The store sets a key to the value given; a key whose value is
    [undefined] is dropped from the update, and the stored field stays. *)
Definition assign (d : doc) (a : assignment) : doc :=
  match a with
  | SetTextContent (Some v) =>
      mk (_id d) (userId d) (Some v) (imageContent d) (tags d) (likes d)
         (comments d) (donatable d) (createdAt d) (updatedAt d)
  | SetTextContent None => d
  | SetImageContent (Some v) =>
      mk (_id d) (userId d) (textContent d) (Some v) (tags d) (likes d)
         (comments d) (donatable d) (createdAt d) (updatedAt d)
  | SetImageContent None => d
  | SetTags v =>
      mk (_id d) (userId d) (textContent d) (imageContent d) v (likes d)
         (comments d) (donatable d) (createdAt d) (updatedAt d)
  | SetLikes v =>
      mk (_id d) (userId d) (textContent d) (imageContent d) (tags d) v
         (comments d) (donatable d) (createdAt d) (updatedAt d)
  | SetComments v =>
      mk (_id d) (userId d) (textContent d) (imageContent d) (tags d)
         (likes d) v (donatable d) (createdAt d) (updatedAt d)
  end.

Definition touch (now : Z) (d : doc) : doc :=
  mk (_id d) (userId d) (textContent d) (imageContent d) (tags d)
     (likes d) (comments d) (donatable d) (createdAt d) now.

(** The document after the keys of [upd] are set, left to right, and the
    store has stamped [updatedAt]. *)
Definition apply (now : Z) (upd : list assignment) (d : doc) : doc :=
  touch now (fold_left assign upd d).

Fixpoint replace (id : string) (now : Z) (upd : list assignment)
    (c : collection) : collection :=
  match c with
  | [] => []
  | d :: c' =>
      if decide (_id d = id) then apply now upd d :: c'
      else d :: replace id now upd c'
  end.

(** [post.updateOne(upd)]: updates the stored document whose id is the
    one of [post], and resolves to a result object. *)
Definition updateOne (post : doc) (now : Z) (upd : list assignment)
    (c : collection) : UpdateResult * collection :=
  match findById (_id post) c with
  | Some _ => (mkUpdateResult 1 1 1, replace (_id post) now upd c)
  | None => (mkUpdateResult 0 0 1, c)
  end.

(** Modelled from the spec: [Post.create(fields)] under the Post schema,
    which is not among the sources.  The store chooses the id and the
    time and fills the schema's default for [donatable]; the author id is
    required and ids are unique, so the call rejects without an author or
    on an id already stored; likes and comments start empty.  The new
    document is added after the stored ones. *)
Definition create (newId : string) (now : Z) (donatableDefault : bool)
    (textContent imageContent : option string) (tags : list string)
    (userId : option string) (c : collection) : option (doc * collection) :=
  match userId with
  | None => None
  | Some author =>
      match findById newId c with
      | Some _ => None
      | None =>
          let d := mk newId author textContent imageContent tags [] []
                      donatableDefault now now in
          Some (d, c ++ [d])
      end
  end.

End Post.

Module User.

(** Modelled from the spec: the User schema (models/User) is not among
    the sources.  The fields the feed query projects, and the
    [connections] sequence the connection handlers read and write. *)
Record doc : Type := mk {
  _id : string;
  firstName : string;
  lastName : string;
  email : string;
  imageUrl : string;
  connections : list string
}.

#[global] Instance doc_eq_dec : EqDecision doc.
Proof. solve_decision. Defined.

Definition collection : Type := list doc.

Fixpoint findById (id : string) (c : collection) : option doc :=
  match c with
  | [] => None
  | d :: c' => if decide (_id d = id) then Some d else findById id c'
  end.

(** The only key the handlers update is [connections]. *)
Definition setConnections (v : list string) (d : doc) : doc :=
  mk (_id d) (firstName d) (lastName d) (email d) (imageUrl d) v.

Fixpoint replace (id : string) (v : list string) (c : collection)
    : collection :=
  match c with
  | [] => []
  | d :: c' =>
      if decide (_id d = id) then setConnections v d :: c'
      else d :: replace id v c'
  end.

(** [user.updateOne({ connections: v })] *)
Definition updateOne (user : doc) (v : list string) (c : collection)
    : UpdateResult * collection :=
  match findById (_id user) c with
  | Some _ => (mkUpdateResult 1 1 1, replace (_id user) v c)
  | None => (mkUpdateResult 0 0 1, c)
  end.

End User.

(** The database: the two collections. *)
Record Db : Type := mkDb {
  posts : Post.collection;
  users : User.collection
}.

(** ** Query stages of the store *)

Module Mongo.

Section Stages.
Context {A : Type}.

(** Ascending and descending order on a date key. *)
Definition asc (key : A → Z) : relation A := λ a b, (key a ≤ key b)%Z.
Definition desc (key : A → Z) : relation A := λ a b, (key b ≤ key a)%Z.

#[global] Instance asc_dec key a b : Decision (asc key a b).
Proof. unfold asc. apply _. Defined.
#[global] Instance desc_dec key a b : Decision (desc key a b).
Proof. unfold desc. apply _. Defined.

(** [$sort: { key: dir }] and [.sort({ key: dir })]: [1] ascending,
    [-1] descending. *)
Definition sort (key : A → Z) (dir : Z) (docs : list A) : list A :=
  if decide (dir = 1%Z) then merge_sort (asc key) docs
  else merge_sort (desc key) docs.

(** [$skip: k]: the store rejects a negative (or non-numeric) count. *)
Definition skip (k : Js.num) (docs : list A) : option (list A) :=
  match k with
  | Js.Num z => if decide (0 ≤ z)%Z then Some (drop (Z.to_nat z) docs)
                else None
  | Js.NaN => None
  end.

(** [$limit: k]: the store rejects a count that is not positive. *)
Definition limit (k : Js.num) (docs : list A) : option (list A) :=
  match k with
  | Js.Num z => if decide (0 < z)%Z then Some (take (Z.to_nat z) docs)
                else None
  | Js.NaN => None
  end.

(** [$group: { _id: null, count: { $sum: 1 } }]: one group holding the
    number of documents, and no group at all over no documents. *)
Definition group_count (docs : list A) : list Z :=
  match docs with
  | [] => []
  | _ :: _ => [Z.of_nat (length docs)]
  end.

End Stages.

(** A filter of [Post.find]. *)
Inductive filter_doc : Type :=
| Everything                       (* {} *)
| TagsIn (vs : list Js.param).     (* { tags: { $in: vs } } *)

(** A string of [$in] matches a post that carries it among its tags;
    [null] and [undefined] match only a document without tag strings,
    and a post's [tags] is a sequence of strings. *)
Definition tag_matches (tags : list string) (v : Js.param) : bool :=
  match v with
  | Js.Str s => bool_decide (s ∈ tags)
  | Js.Null | Js.Undefined => false
  end.

Definition matches (q : filter_doc) (d : Post.doc) : bool :=
  match q with
  | Everything => true
  | TagsIn vs => existsb (tag_matches (Post.tags d)) vs
  end.

(** [Post.find(q)] *)
Definition find (q : filter_doc) (c : Post.collection) : list Post.doc :=
  List.filter (matches q) c.

(** [.limit(k)] of a find query, for the positive constant used here. *)
Definition find_limit (k : nat) (docs : list Post.doc) : list Post.doc :=
  take k docs.

End Mongo.

(** ** The feed pipeline *)

Module Feed.

(** The author fields [$project] keeps. *)
Record author : Type := mkAuthor {
  a_id : string;
  a_firstName : string;
  a_lastName : string;
  a_email : string;
  a_imageUrl : string
}.

(** A projected post; [user] is absent when no user matched. *)
Record row : Type := mkRow {
  _id : string;
  textContent : option string;
  imageContent : option string;
  likes : list string;
  tags : list string;
  comments : list Comment;
  donatable : bool;
  createdAt : Z;
  updatedAt : Z;
  user : option author
}.

(** [$lookup] from users on [userId = _id], as [user]. *)
Definition lookup (us : User.collection) (p : Post.doc)
    : Post.doc * list User.doc :=
  (p, List.filter (λ u, bool_decide (User._id u = Post.userId p)) us).

(** [$unwind] of [$user] with [preserveNullAndEmptyArrays]. *)
Definition unwind (j : Post.doc * list User.doc)
    : list (Post.doc * option User.doc) :=
  match j.2 with
  | [] => [(j.1, None)]
  | us => map (λ u, (j.1, Some u)) us
  end.

Definition project_user (u : User.doc) : author :=
  mkAuthor (User._id u) (User.firstName u) (User.lastName u)
           (User.email u) (User.imageUrl u).

(** [$project] *)
Definition project (j : Post.doc * option User.doc) : row :=
  let p := j.1 in
  mkRow (Post._id p) (Post.textContent p) (Post.imageContent p)
        (Post.likes p) (Post.tags p) (Post.comments p) (Post.donatable p)
        (Post.createdAt p) (Post.updatedAt p) (project_user <$> j.2).

(** The [posts] facet: lookup, unwind, project, sort, skip, limit. *)
Definition posts_facet (dir : Z) (skip limit : Js.num) (db : Db)
    : option (list row) :=
  let joined := map (lookup (users db)) (posts db) in
  let unwound := concat (map unwind joined) in
  let projected := map project unwound in
  let sorted := Mongo.sort createdAt dir projected in
  skipped ← Mongo.skip skip sorted;
  Mongo.limit limit skipped.

(** The [total] facet. *)
Definition total_facet (db : Db) : list Z :=
  Mongo.group_count (posts db).

(** [Post.aggregate([{ $facet: { posts, total } }])]: the one result
    document, or a rejection. *)
Definition aggregate (dir : Z) (skip limit : Js.num) (db : Db)
    : option (list row * list Z) :=
  ps ← posts_facet dir skip limit db;
  Some (ps, total_facet db).

End Feed.

(** ** The handlers *)

(** How a handler ends: [res.json(body)], or [res.status(statusCode)]
    followed by [throw new Error(errorMessage)], or the rejection of an
    awaited store call, which the async wrapper passes on. *)
Inductive outcome (B : Type) : Type :=
| Json (body : B)
| Error (statusCode : Z) (errorMessage : string)
| Rejected.

Arguments Json {B} body.
Arguments Error {B} statusCode errorMessage.
Arguments Rejected {B}.

(** [req.query] of the feed route: each field absent or holding its
    value. *)
Record SearchQuery : Type := mkSearchQuery {
  start : option Z;
  limit : option Z;
  order : option string
}.

(** Body of the feed response. *)
Record FeedBody : Type := mkFeedBody {
  data : list Feed.row;
  filters : SearchQuery;
  hasNextPage : bool;
  total : Js.num
}.

(** [req.body] of the edit route. *)
Record EditBody : Type := mkEditBody {
  textContent : option string;
  imageContent : option string;
  tags : string
}.

(** [getPosts], GET /api/v1/social.  The product [start * limit] is taken
    on the numeric readings of the two fields; the skip and the limit
    fall back to 0 and 10 through [||], [hasNextPage] is computed from
    the product and the limit as they are. *)
Definition getPosts (searchQuery : SearchQuery) (db : Db) : outcome FeedBody :=
  let page := Js.mul (Js.Number (start searchQuery))
                     (Js.Number (limit searchQuery)) in
  match Feed.aggregate
          (if decide (order searchQuery = Some "asc") then 1 else -1)%Z
          (Js.or page (Js.Num 0))
          (Js.or (Js.Number (limit searchQuery)) (Js.Num 10))
          db
  with
  | None => Rejected
  | Some (rows, counts) =>
      let total :=
        match head counts with
        | Some count => Js.or (Js.Num count) (Js.Num 0)
        | None => Js.Num 0
        end in
      let hasNextPage :=
        Js.gt total (Js.add page (Js.Number (limit searchQuery))) in
      Json (mkFeedBody rows searchQuery hasNextPage total)
  end.

(** [likePost], PUT /api/v1/social/:userId/:postId/like.  [updatedLikes]
    starts as the post's own likes array, which [push] extends; when the
    caller is among the likes it is a new array filled by the loop. *)
Definition likePost (now : Z) (postId userId : string) (db : Db)
    : outcome string * Db :=
  let errorMessage := "Post not found" in
  let statusCode := 404%Z in
  match Post.findById postId (posts db) with
  | Some post =>
      let errorMessage := "Failed to like post" in
      let statusCode := 500%Z in
      let updatedLikes :=
        if Js.includes userId (Post.likes post) then
          Js.forEach (Post.likes post)
            (λ updatedLikes likedUserId,
               if bool_decide (likedUserId ≠ userId)
               then Js.push updatedLikes likedUserId
               else updatedLikes)
            []
        else Js.push (Post.likes post) userId in
      let '(postLiked, posts') :=
        Post.updateOne post now [Post.SetLikes updatedLikes] (posts db) in
      let db' := mkDb posts' (users db) in
      if Js.truthy postLiked then (Json "Post Liked", db')
      else (Error statusCode errorMessage, db')
  | None => (Error statusCode errorMessage, db)
  end.

(** [commentPost], PUT /api/v1/social/:userId/:postId/comment. *)
Definition commentPost (now : Z) (postId userId comment : string) (db : Db)
    : outcome string * Db :=
  let errorMessage := "Post not found" in
  let statusCode := 404%Z in
  match Post.findById postId (posts db) with
  | Some post =>
      let errorMessage := "Failed to comment on post" in
      let statusCode := 500%Z in
      let '(commentPosted, posts') :=
        Post.updateOne post now
          [Post.SetComments (Post.comments post ++ [mkComment userId comment])]
          (posts db) in
      let db' := mkDb posts' (users db) in
      if Js.truthy commentPosted then (Json "Commented on post", db')
      else (Error statusCode errorMessage, db')
  | None => (Error statusCode errorMessage, db)
  end.

(** [editPost], PUT /api/v1/social/:userId/:postId/edit.  The update
    object carries the body's [textContent] and [imageContent] as they
    are, [undefined] when the body omits them. *)
Definition editPost (now : Z) (postId : string) (body : EditBody) (db : Db)
    : outcome string * Db :=
  let errorMessage := "Post not found" in
  let statusCode := 404%Z in
  match Post.findById postId (posts db) with
  | Some post =>
      let errorMessage := "Failed to edit post" in
      let statusCode := 500%Z in
      let '(postEdited, posts') :=
        Post.updateOne post now
          [Post.SetTextContent (textContent body);
           Post.SetImageContent (imageContent body);
           Post.SetTags (Js.split Js.comma (tags body))]
          (posts db) in
      let db' := mkDb posts' (users db) in
      if Js.truthy postEdited then (Json "Post edited", db')
      else (Error statusCode errorMessage, db')
  | None => (Error statusCode errorMessage, db)
  end.

(** [getUserSocialConnections], GET /api/v1/social/connections/:userId. *)
Definition getUserSocialConnections (userId : string) (db : Db)
    : outcome (list string) :=
  match User.findById userId (users db) with
  | Some user => Json (User.connections user)
  | None => Error 404 "User not found"
  end.

(** [addUserSocialConnections],
    PUT /api/v1/social/connections/:userId/addConnection. *)
Definition addUserSocialConnections (userId otherUserId : string) (db : Db)
    : outcome string * Db :=
  let errorMessage := "User not found" in
  let statusCode := 404%Z in
  match User.findById userId (users db) with
  | Some user =>
      let errorMessage :=
        "Failed to add connection to the user's database entry" in
      let statusCode := 500%Z in
      let '(connectionAdded, users') :=
        User.updateOne user (User.connections user ++ [otherUserId])
          (users db) in
      let db' := mkDb (posts db) users' in
      if Js.truthy connectionAdded
      then (Json "User added to your connections list", db')
      else (Error statusCode errorMessage, db')
  | None => (Error statusCode errorMessage, db)
  end.

(** [removeUserSocialConnections],
    PUT /api/v1/social/connections/:userId/removeConnection. *)
Definition removeUserSocialConnections (userId otherUserId : string) (db : Db)
    : outcome string * Db :=
  let errorMessage := "User not found" in
  let statusCode := 404%Z in
  match User.findById userId (users db) with
  | Some user =>
      let errorMessage :=
        "Failed to remove connection from the user's database entry" in
      let statusCode := 500%Z in
      let updatedConnections :=
        List.filter (λ userConnectionId,
                       bool_decide (userConnectionId ≠ otherUserId))
                    (User.connections user) in
      let '(connectionRemoved, users') :=
        User.updateOne user updatedConnections (users db) in
      let db' := mkDb (posts db) users' in
      if Js.truthy connectionRemoved
      then (Json "User removed from your connections list", db')
      else (Error statusCode errorMessage, db')
  | None => (Error statusCode errorMessage, db)
  end.

(** [getPostData], /api/v1/social/explore/:postTag.  The three tests of
    [postTag !== null] are kept as written. *)
Definition getPostData (postTag : Js.param) (db : Db)
    : outcome (list Post.doc) :=
  let statusCode := if Js.strict_ne_null postTag then 404%Z else 204%Z in
  let errorMessage :=
    if Js.strict_ne_null postTag then "Tag not found"
    else "No Content Available" in
  let found :=
    if Js.strict_ne_null postTag then
      Mongo.find_limit 10
        (Mongo.sort Post.createdAt (-1)
           (Mongo.find (Mongo.TagsIn [postTag]) (posts db)))
    else
      Mongo.find_limit 10
        (Mongo.sort Post.createdAt (-1) (Mongo.find Mongo.Everything (posts db)))
  in
  if Js.truthy found then Json found else Error statusCode errorMessage.

(** ** Sample data for the worked examples *)

Definition samplePost (id : string) (t : Z) (tgs likes : list string)
    : Post.doc :=
  Post.mk id "u1" (Some "hello") None tgs likes [] false t t.

Definition sampleUser (id : string) (conns : list string) : User.doc :=
  User.mk id "Ada" "Lovelace" "ada@example.org" "ada.png" conns.

Definition sampleDb : Db :=
  mkDb [samplePost "p1" 10 ["rust"; "coq"] ["u2"];
        samplePost "p2" 30 ["coq"] [];
        samplePost "p3" 20 ["go"] ["u1"; "u2"; "u1"]]
       [sampleUser "u1" ["u2"]; sampleUser "u2" []].

(** A database of eleven posts, created at times 1 to 11, and no
    users. *)
Definition elevenPosts : Db :=
  mkDb (map (λ i : nat, samplePost (String (Ascii.ascii_of_nat (65 + i)) "")
                          (Z.of_nat i) ["coq"] [])
            (seq 1 11))
       [].

(** ** What the explore query is to return *)

(** [result] is the [k] most recent documents of [pool], newest first:
    it is a part of [pool] of [k] documents (all of [pool] when it has
    fewer), in descending order of creation time, and no document left
    out is newer than one taken. *)
Definition most_recent (k : nat) (pool result : list Post.doc) : Prop :=
  ∃ rest,
    result ++ rest ≡ₚ pool ∧
    length result = Nat.min k (length pool) ∧
    StronglySorted (Mongo.desc Post.createdAt) result ∧
    ∀ x y, x ∈ result → y ∈ rest → (Post.createdAt y ≤ Post.createdAt x)%Z.

(** ** Post creation *)

(** [postContent], POST /api/v1/social/:userId.  [userId] is
    [req.user?._id], absent without an authenticated user; the body has
    the shape of the edit body. *)
Definition postContent (newId : string) (now : Z) (donatableDefault : bool)
    (userId : option string) (body : EditBody) (db : Db)
    : outcome (string * Post.doc) * Db :=
  let errorMessage := "Failed posting content" in
  let statusCode := 500%Z in
  match Post.create newId now donatableDefault (textContent body)
          (imageContent body) (Js.split Js.comma (tags body)) userId
          (posts db)
  with
  | None => (Rejected, db)
  | Some (post, posts') =>
      let db' := mkDb posts' (users db) in
      if Js.truthy (Some post) then (Json ("Content Posted", post), db')
      else (Error statusCode errorMessage, db')
  end.

(** ** Vocabulary of the further properties *)

(** All rows of the feed before sorting and paging: every post joined
    with each user whose id is its author id, or once without user. *)
Definition feed_rows (db : Db) : list Feed.row :=
  map Feed.project
      (concat (map Feed.unwind (map (Feed.lookup (users db)) (posts db)))).

(** The row of a post joined with the user found under its author id. *)
Definition joined_row (us : User.collection) (p : Post.doc) : Feed.row :=
  Feed.project (p, User.findById (Post.userId p) us).

(** The sort direction the feed derives from [order]. *)
Definition feed_dir (ord : option string) : Z :=
  if decide (ord = Some "asc") then 1%Z else (-1)%Z.

(** [db'] differs from [db] at most in the post stored under [postId]:
    same users, same post ids in the same order, and every other id
    resolves to the same post. *)
Definition same_outside (postId : string) (db db' : Db) : Prop :=
  users db' = users db ∧
  map Post._id (posts db') = map Post._id (posts db) ∧
  ∀ id, id ≠ postId →
    Post.findById id (posts db') = Post.findById id (posts db).

(** [db'] differs from [db] at most in the connections of the user
    stored under [userId]. *)
Definition same_outside_user (userId : string) (db db' : Db) : Prop :=
  posts db' = posts db ∧
  map User._id (users db') = map User._id (users db) ∧
  ∀ id, id ≠ userId →
    User.findById id (users db') = User.findById id (users db).

(** No character of [s] is [c]. *)
Definition free_of (c : Ascii.ascii) (s : string) : Prop :=
  c ∉ String.list_ascii_of_string s.

(** ** Facts about the collections *)

Section PostStore.
Implicit Types (c : Post.collection) (d : Post.doc) (id : string).

Lemma Post_findById_id id c d : Post.findById id c = Some d → Post._id d = id.
Proof.
  induction c as [|x c IH]; simpl; [done|].
  destruct (decide (Post._id x = id)); [by intros [= <-]|done].
Qed.

Lemma Post_findById_elem id c d : Post.findById id c = Some d → d ∈ c.
Proof.
  induction c as [|x c IH]; simpl; [done|].
  destruct (decide (Post._id x = id)).
  - intros [= <-]. left.
  - intros ?. right. auto.
Qed.

Lemma Post_assign_id d a : Post._id (Post.assign d a) = Post._id d.
Proof. by destruct a as [[v|]|[v|]| | |]. Qed.

Lemma Post_apply_id now upd d : Post._id (Post.apply now upd d) = Post._id d.
Proof.
  unfold Post.apply. simpl. revert d.
  induction upd as [|a upd IH]; intros d; simpl; [done|].
  by rewrite IH, Post_assign_id.
Qed.

(** Reading back the updated document. *)
Lemma Post_findById_replace id now upd c :
  Post.findById id (Post.replace id now upd c)
  = Post.apply now upd <$> Post.findById id c.
Proof.
  induction c as [|x c IH]; cbn [Post.findById Post.replace]; [done|].
  destruct (decide (Post._id x = id)) as [Hx|Hx];
    cbn [Post.findById Post.replace].
  - rewrite Post_apply_id. by rewrite decide_True.
  - by rewrite decide_False.
Qed.

(** Every other document reads back as before. *)
Lemma Post_findById_replace_ne id id' now upd c :
  id' ≠ id →
  Post.findById id' (Post.replace id now upd c) = Post.findById id' c.
Proof.
  intros Hne. induction c as [|x c IH]; cbn [Post.findById Post.replace];
    [done|].
  destruct (decide (Post._id x = id)) as [Hx|Hx];
    cbn [Post.findById Post.replace].
  - rewrite Post_apply_id.
    rewrite !decide_False by congruence. done.
  - by rewrite IH.
Qed.

Lemma Post_updateOne_found d now upd c :
  Post.findById (Post._id d) c = Some d →
  Post.updateOne d now upd c
  = (mkUpdateResult 1 1 1, Post.replace (Post._id d) now upd c).
Proof. unfold Post.updateOne. by intros ->. Qed.

End PostStore.

Section UserStore.
Implicit Types (c : User.collection) (d : User.doc) (id : string).

Lemma User_findById_id id c d : User.findById id c = Some d → User._id d = id.
Proof.
  induction c as [|x c IH]; simpl; [done|].
  destruct (decide (User._id x = id)); [by intros [= <-]|done].
Qed.

Lemma User_findById_replace id v c :
  User.findById id (User.replace id v c)
  = User.setConnections v <$> User.findById id c.
Proof.
  induction c as [|x c IH]; simpl; [done|].
  destruct (decide (User._id x = id)) as [Hx|Hx]; simpl.
  - by rewrite decide_True.
  - by rewrite decide_False.
Qed.

Lemma User_updateOne_found d v c :
  User.findById (User._id d) c = Some d →
  User.updateOne d v c = (mkUpdateResult 1 1 1, User.replace (User._id d) v c).
Proof. unfold User.updateOne. by intros ->. Qed.

End UserStore.

(** ** Facts about the array code *)

Section Arrays.
Implicit Types (arr acc : list string) (u : string).

Lemma includes_true u arr : Js.includes u arr = true ↔ u ∈ arr.
Proof. unfold Js.includes. apply bool_decide_eq_true. Qed.

Lemma includes_false u arr : Js.includes u arr = false ↔ u ∉ arr.
Proof. unfold Js.includes. apply bool_decide_eq_false. Qed.

(** The [forEach]/[push] loop of the like toggle keeps, in order, the
    entries other than [u]. *)
Lemma forEach_push_ne u arr acc :
  Js.forEach arr
    (λ updatedLikes likedUserId,
       if bool_decide (likedUserId ≠ u)
       then Js.push updatedLikes likedUserId else updatedLikes)
    acc
  = acc ++ filter (λ x, x ≠ u) arr.
Proof.
  unfold Js.forEach, Js.push. revert acc.
  induction arr as [|x arr IH]; intros acc; simpl.
  - by rewrite app_nil_r.
  - rewrite IH. case_bool_decide as Hx.
    + rewrite filter_cons_True by done. by rewrite <- app_assoc.
    + rewrite filter_cons_False; [done|]. by intros ?.
Qed.

(** [arr.filter(x => x !== u)] *)
Lemma filter_strict_ne u arr :
  List.filter (λ x, bool_decide (x ≠ u)) arr = filter (λ x, x ≠ u) arr.
Proof.
  induction arr as [|x arr IH]; simpl; [done|].
  case_bool_decide.
  - rewrite filter_cons_True by done. by rewrite IH.
  - rewrite filter_cons_False; [done|]. by intros ?.
Qed.

(** Removing [u] from a sequence without [u], extended by [u], gives
    the sequence back. *)
Lemma filter_ne_snoc u arr :
  u ∉ arr → filter (λ x, x ≠ u) (arr ++ [u]) = arr.
Proof.
  intros Hu. rewrite filter_app.
  rewrite filter_cons_False, filter_nil, app_nil_r by (by intros ?).
  induction arr as [|x arr IH]; [done|].
  apply not_elem_of_cons in Hu as [Hx Hu].
  rewrite filter_cons_True by done. by rewrite IH.
Qed.

End Arrays.

(** ** The post mutations *)

Section PostMutations.
Variables (now : Z) (postId : string) (db : Db) (post : Post.doc).
Hypothesis Hpost : Post.findById postId (posts db) = Some post.

Lemma update_of_found upd :
  Post.updateOne post now upd (posts db)
  = (mkUpdateResult 1 1 1, Post.replace postId now upd (posts db)).
Proof using Hpost.
  pose proof (Post_findById_id _ _ _ Hpost) as Hid.
  rewrite Post_updateOne_found by (by rewrite Hid).
  by rewrite Hid.
Qed.

Lemma read_back upd :
  Post.findById postId (Post.replace postId now upd (posts db))
  = Some (Post.apply now upd post).
Proof using Hpost. by rewrite Post_findById_replace, Hpost. Qed.

(** The like toggle writes the toggled sequence. *)
Lemma likePost_found userId :
  likePost now postId userId db
  = (Json "Post Liked",
     mkDb (Post.replace postId now
             [Post.SetLikes
                (if decide (userId ∈ Post.likes post)
                 then filter (λ x, x ≠ userId) (Post.likes post)
                 else Post.likes post ++ [userId])]
             (posts db))
          (users db)).
Proof using Hpost.
  unfold likePost. rewrite Hpost.
  destruct (decide (userId ∈ Post.likes post)) as [Hin|Hin].
  - apply includes_true in Hin as ->.
    rewrite forEach_push_ne, app_nil_l. by rewrite update_of_found.
  - apply includes_false in Hin as ->.
    unfold Js.push. by rewrite update_of_found.
Qed.

Lemma commentPost_found userId comment :
  commentPost now postId userId comment db
  = (Json "Commented on post",
     mkDb (Post.replace postId now
             [Post.SetComments
                (Post.comments post ++ [mkComment userId comment])]
             (posts db))
          (users db)).
Proof using Hpost.
  unfold commentPost. rewrite Hpost. by rewrite update_of_found.
Qed.

Lemma editPost_found body :
  editPost now postId body db
  = (Json "Post edited",
     mkDb (Post.replace postId now
             [Post.SetTextContent (textContent body);
              Post.SetImageContent (imageContent body);
              Post.SetTags (Js.split Js.comma (tags body))]
             (posts db))
          (users db)).
Proof using Hpost.
  unfold editPost. rewrite Hpost. by rewrite update_of_found.
Qed.

End PostMutations.

(** C2. One like-toggle call on an existing post answers "Post Liked" and
    leaves the post with: its former likes without any occurrence of the
    caller's id, when the id was among them; otherwise its former likes
    followed by the caller's id, once. *)
Theorem likePost_toggle (now : Z) (postId userId : string) (db : Db)
    (post : Post.doc) :
  Post.findById postId (posts db) = Some post →
  ∃ db' post',
    likePost now postId userId db = (Json "Post Liked", db') ∧
    Post.findById postId (posts db') = Some post' ∧
    Post.likes post' =
      (if decide (userId ∈ Post.likes post)
       then filter (λ x, x ≠ userId) (Post.likes post)
       else Post.likes post ++ [userId]).
Proof.
  intros Hpost. eexists _, _. split; [exact (likePost_found _ _ _ _ Hpost userId)|].
  split; [exact (read_back _ _ _ _ Hpost _)|]. done.
Qed.

(** C3. On a post the user has not liked, two like-toggle calls in
    sequence, the second on the database the first left, both answer
    "Post Liked" and leave the post's likes as they were before the first
    call. *)
Theorem likePost_twice_restores (now1 now2 : Z) (postId userId : string)
    (db : Db) (post : Post.doc) :
  Post.findById postId (posts db) = Some post →
  userId ∉ Post.likes post →
  ∃ db1 db2 post2,
    likePost now1 postId userId db = (Json "Post Liked", db1) ∧
    likePost now2 postId userId db1 = (Json "Post Liked", db2) ∧
    Post.findById postId (posts db2) = Some post2 ∧
    Post.likes post2 = Post.likes post.
Proof.
  intros Hpost Hnot.
  pose proof (likePost_found now1 postId db post Hpost userId) as H1.
  rewrite decide_False in H1 by done.
  eexists _, _, _. split; [exact H1|].
  match type of H1 with _ = (_, ?d) => set (db1 := d) end.
  assert (Hpost1 : Post.findById postId (posts db1)
                   = Some (Post.apply now1
                             [Post.SetLikes (Post.likes post ++ [userId])]
                             post))
    by exact (read_back _ _ _ _ Hpost _).
  split; [by apply (likePost_found now2 postId db1 _ Hpost1)|].
  split; [exact (read_back _ _ _ _ Hpost1 _)|].
  cbn. rewrite decide_True by (apply elem_of_app; right; left).
  by apply filter_ne_snoc.
Qed.

(** C4, as stated, fails: it is not so that every edit of an existing
    post leaves the post with the body's textContent and imageContent.
    An edit of the sample post p1 whose body omits textContent leaves
    the stored text "hello" in place. *)
Lemma editPost_omitted_text_kept :
  ¬ (∀ (now : Z) (postId : string) (body : EditBody) (db : Db)
       (post : Post.doc),
       Post.findById postId (posts db) = Some post →
       ∃ db' post',
         editPost now postId body db = (Json "Post edited", db') ∧
         Post.findById postId (posts db') = Some post' ∧
         Post.textContent post' = textContent body ∧
         Post.imageContent post' = imageContent body ∧
         Post.tags post' = Js.split Js.comma (tags body) ∧
         Post.likes post' = Post.likes post ∧
         Post.comments post' = Post.comments post).
Proof.
  intros Hclaim.
  destruct (Hclaim 99%Z "p1" (mkEditBody None (Some "x.png") "a,b") sampleDb
              (samplePost "p1" 10 ["rust"; "coq"] ["u2"]) eq_refl)
    as (db' & post' & Hedit & Hfind & Htext & _).
  vm_compute in Hedit. injection Hedit as <-.
  vm_compute in Hfind. injection Hfind as <-.
  discriminate Htext.
Qed.

(** C4, amended. Editing an existing post answers "Post edited" and
    leaves the post with the tags obtained by splitting the body's tag
    string at its commas, with the body's textContent when the body
    gives one and the former textContent when it omits it, likewise for
    imageContent, and with its likes and comments as they were. *)
Theorem editPost_replaces (now : Z) (postId : string) (body : EditBody)
    (db : Db) (post : Post.doc) :
  Post.findById postId (posts db) = Some post →
  ∃ db' post',
    editPost now postId body db = (Json "Post edited", db') ∧
    Post.findById postId (posts db') = Some post' ∧
    Post.textContent post' =
      match textContent body with
      | Some text => Some text
      | None => Post.textContent post
      end ∧
    Post.imageContent post' =
      match imageContent body with
      | Some image => Some image
      | None => Post.imageContent post
      end ∧
    Post.tags post' = Js.split Js.comma (tags body) ∧
    Post.likes post' = Post.likes post ∧
    Post.comments post' = Post.comments post.
Proof.
  intros Hpost. eexists _, _.
  split; [exact (editPost_found _ _ _ _ Hpost body)|].
  split; [exact (read_back _ _ _ _ Hpost _)|].
  unfold Post.apply. cbn [fold_left].
  by destruct (textContent body), (imageContent body).
Qed.

(** C5. Commenting on an existing post answers "Commented on post" and
    leaves the post with its former comments, in their order, followed by
    one new entry holding the author id and the text. *)
Theorem commentPost_appends (now : Z) (postId userId comment : string)
    (db : Db) (post : Post.doc) :
  Post.findById postId (posts db) = Some post →
  ∃ db' post',
    commentPost now postId userId comment db = (Json "Commented on post", db') ∧
    Post.findById postId (posts db') = Some post' ∧
    Post.comments post' = Post.comments post ++ [mkComment userId comment].
Proof.
  intros Hpost. eexists _, _. split; [exact (commentPost_found _ _ _ _ Hpost userId comment)|].
  split; [exact (read_back _ _ _ _ Hpost _)|]. done.
Qed.

(** C7. When the post id resolves to no post, like, comment and edit each
    end with status 404 and the message "Post not found", on an unchanged
    database. *)
Theorem missing_post_not_found (now : Z) (postId userId comment : string)
    (body : EditBody) (db : Db) :
  Post.findById postId (posts db) = None →
  likePost now postId userId db = (Error 404 "Post not found", db) ∧
  commentPost now postId userId comment db = (Error 404 "Post not found", db) ∧
  editPost now postId body db = (Error 404 "Post not found", db).
Proof.
  intros Hnone. unfold likePost, commentPost, editPost.
  by rewrite Hnone.
Qed.

(** ** The connection handlers *)

Section Connections.
Variables (userId : string) (db : Db) (user : User.doc).
Hypothesis Huser : User.findById userId (users db) = Some user.

Lemma connections_update v :
  User.updateOne user v (users db)
  = (mkUpdateResult 1 1 1, User.replace userId v (users db)).
Proof using Huser.
  pose proof (User_findById_id _ _ _ Huser) as Hid.
  rewrite User_updateOne_found by (by rewrite Hid).
  by rewrite Hid.
Qed.

Lemma connections_read_back v :
  User.findById userId (User.replace userId v (users db))
  = Some (User.setConnections v user).
Proof using Huser. by rewrite User_findById_replace, Huser. Qed.

Lemma addUserSocialConnections_found otherUserId :
  addUserSocialConnections userId otherUserId db
  = (Json "User added to your connections list",
     mkDb (posts db)
          (User.replace userId (User.connections user ++ [otherUserId])
             (users db))).
Proof using Huser.
  unfold addUserSocialConnections. rewrite Huser.
  by rewrite connections_update.
Qed.

Lemma removeUserSocialConnections_found otherUserId :
  removeUserSocialConnections userId otherUserId db
  = (Json "User removed from your connections list",
     mkDb (posts db)
          (User.replace userId
             (filter (λ x, x ≠ otherUserId) (User.connections user))
             (users db))).
Proof using Huser.
  unfold removeUserSocialConnections. rewrite Huser.
  by rewrite filter_strict_ne, connections_update.
Qed.

End Connections.

(** C6. For a user whose connections do not contain the target id, adding
    the target and then removing it, the removal on the database the
    addition left, both succeed and leave the user's connections as they
    were at the start. *)
Theorem add_remove_connection_restores (userId otherUserId : string)
    (db : Db) (user : User.doc) :
  User.findById userId (users db) = Some user →
  otherUserId ∉ User.connections user →
  ∃ db1 db2 user2,
    addUserSocialConnections userId otherUserId db
      = (Json "User added to your connections list", db1) ∧
    removeUserSocialConnections userId otherUserId db1
      = (Json "User removed from your connections list", db2) ∧
    User.findById userId (users db2) = Some user2 ∧
    User.connections user2 = User.connections user.
Proof.
  intros Huser Hnot.
  pose proof (addUserSocialConnections_found _ _ _ Huser otherUserId) as H1.
  eexists _, _, _. split; [exact H1|].
  match type of H1 with _ = (_, ?d) => set (db1 := d) end.
  pose proof (connections_read_back _ _ _ Huser
                (User.connections user ++ [otherUserId])) as Huser1.
  change (User.replace userId (User.connections user ++ [otherUserId])
            (users db)) with (users db1) in Huser1.
  split; [exact (removeUserSocialConnections_found _ _ _ Huser1 otherUserId)|].
  split; [exact (connections_read_back _ _ _ Huser1 _)|].
  cbn. by apply filter_ne_snoc.
Qed.

(** ** The feed query *)

Section FeedQuery.
Implicit Types (db : Db) (s l : Z).

Lemma or_default_page s l :
  (0 ≤ s)%Z → (0 < l)%Z →
  Js.or (Js.mul (Js.Number (Some s)) (Js.Number (Some l))) (Js.Num 0)
  = Js.Num (s * l).
Proof.
  intros Hs Hl. unfold Js.or, Js.truthy, Js.num_truthy. cbn.
  case_bool_decide as H0; [done|].
  f_equal. lia.
Qed.

Lemma or_default_limit l :
  (0 < l)%Z → Js.or (Js.Number (Some l)) (Js.Num 10) = Js.Num l.
Proof.
  intros Hl. unfold Js.or, Js.truthy, Js.num_truthy. cbn.
  rewrite bool_decide_true by lia. done.
Qed.

(** The count the handler reads off the [total] facet is the number of
    posts in the collection. *)
Lemma total_is_count db :
  match head (Feed.total_facet db) with
  | Some count => Js.or (Js.Num count) (Js.Num 0)
  | None => Js.Num 0
  end = Js.Num (Z.of_nat (length (posts db))).
Proof.
  unfold Feed.total_facet, Mongo.group_count.
  destruct (posts db) as [|p ps]; [done|].
  cbn [head]. unfold Js.or, Js.truthy, Js.num_truthy.
  rewrite bool_decide_true; [done|]. cbn [length]. lia.
Qed.

Lemma posts_facet_valid dir s l db :
  (0 ≤ s)%Z → (0 < l)%Z →
  ∃ rows, Feed.posts_facet dir (Js.Num (s * l)) (Js.Num l) db = Some rows ∧
          (length rows ≤ Z.to_nat l)%nat.
Proof.
  intros Hs Hl. unfold Feed.posts_facet, Mongo.skip, Mongo.limit.
  rewrite decide_True by lia. cbn [mbind option_bind].
  rewrite decide_True by lia.
  eexists. split; [done|]. rewrite length_take. lia.
Qed.

End FeedQuery.

(** C1. For a page index [s ≥ 0] and a page size [l ≥ 1], in either
    order and on any database, the feed query answers with at most [l]
    posts, with [total] the number of posts in the collection, and with
    [hasNextPage] true exactly when [total > s*l + l]. *)
Theorem getPosts_page (s l : Z) (ord : option string) (db : Db) :
  (0 ≤ s)%Z → (0 < l)%Z →
  ∃ body,
    getPosts (mkSearchQuery (Some s) (Some l) ord) db = Json body ∧
    (Z.of_nat (length (data body)) ≤ l)%Z ∧
    total body = Js.Num (Z.of_nat (length (posts db))) ∧
    (hasNextPage body = true ↔
     (Z.of_nat (length (posts db)) > s * l + l)%Z).
Proof.
  intros Hs Hl. unfold getPosts. cbn [start limit order].
  rewrite or_default_page, or_default_limit by done.
  unfold Feed.aggregate.
  destruct (posts_facet_valid
              (if decide (ord = Some "asc") then 1 else -1)%Z s l db Hs Hl)
    as (rows & -> & Hlen).
  cbn [mbind option_bind]. rewrite total_is_count.
  eexists. split; [done|]. cbn [data total hasNextPage].
  split; [lia|]. split; [done|].
  cbn. rewrite bool_decide_eq_true. lia.
Qed.

Lemma or_nan (d : Js.num) : Js.or Js.NaN d = d.
Proof. reflexivity. Qed.

Lemma or_zero (d : Js.num) : Js.or (Js.Num 0) d = d.
Proof. reflexivity. Qed.

Lemma or_ten (d : Js.num) : Js.or (Js.Num 10) d = Js.Num 10.
Proof. reflexivity. Qed.

(** Where both parameters are missing or zero, the rows and the total
    are those of start 0 and limit 10. *)
Lemma getPosts_defaults_rows (st li : option Z) (ord : option string)
    (db : Db) :
  st = None ∨ st = Some 0%Z →
  li = None ∨ li = Some 0%Z →
  ∃ b b',
    getPosts (mkSearchQuery st li ord) db = Json b ∧
    getPosts (mkSearchQuery (Some 0%Z) (Some 10%Z) ord) db = Json b' ∧
    data b = data b' ∧ total b = total b'.
Proof.
  intros Hst Hli.
  destruct (posts_facet_valid
              (if decide (ord = Some "asc") then 1 else -1)%Z 0 10 db)
    as (rows & Hrows & _); [lia..|].
  change (0 * 10)%Z with 0%Z in Hrows.
  destruct Hst as [-> | ->], Hli as [-> | ->];
    unfold getPosts, Feed.aggregate;
    cbn [start limit order Js.Number Js.mul];
    change (0 * 10)%Z with 0%Z; change (0 * 0)%Z with 0%Z;
    rewrite ?or_nan, ?or_zero, ?or_ten;
    rewrite Hrows; cbn [mbind option_bind];
    eexists _, _; done.
Qed.

(** C9. With no query parameters on a collection of eleven posts, the
    feed answers with the same posts and total as for start 0 and limit
    10, but with [hasNextPage] false, where start 0 and limit 10 give
    true.  With start 0 and limit 0 on a collection of three posts it
    answers [hasNextPage] true, where start 0 and limit 10 give false.
    With start 1 and no limit on the eleven posts it answers with the ten
    newest posts, where start 1 and limit 10 give the one oldest. *)
Theorem getPosts_defaults_hasNextPage :
  (∃ b b',
     getPosts (mkSearchQuery None None None) elevenPosts = Json b ∧
     getPosts (mkSearchQuery (Some 0%Z) (Some 10%Z) None) elevenPosts = Json b' ∧
     data b = data b' ∧ length (data b) = 10%nat ∧
     total b = total b' ∧
     hasNextPage b = false ∧ hasNextPage b' = true) ∧
  (∃ b b',
     getPosts (mkSearchQuery (Some 0%Z) (Some 0%Z) None) sampleDb = Json b ∧
     getPosts (mkSearchQuery (Some 0%Z) (Some 10%Z) None) sampleDb = Json b' ∧
     data b = data b' ∧ total b = total b' ∧
     hasNextPage b = true ∧ hasNextPage b' = false) ∧
  (∃ b b',
     getPosts (mkSearchQuery (Some 1%Z) None None) elevenPosts = Json b ∧
     getPosts (mkSearchQuery (Some 1%Z) (Some 10%Z) None) elevenPosts = Json b' ∧
     length (data b) = 10%nat ∧ length (data b') = 1%nat).
Proof.
  repeat split; eexists _, _; (split; [vm_compute; reflexivity|]);
    (split; [vm_compute; reflexivity|]); vm_compute; repeat split.
Qed.

(** ** The explore query *)

Section Explore.
Context {A : Type} (key : A → Z).

#[global] Instance desc_transitive : Transitive (Mongo.desc key).
Proof. unfold Mongo.desc. intros x y z ??. lia. Qed.

#[global] Instance desc_total : Total (Mongo.desc key).
Proof. unfold Mongo.desc. intros x y. lia. Qed.

Lemma sort_desc_sorted (docs : list A) :
  StronglySorted (Mongo.desc key) (Mongo.sort key (-1) docs).
Proof.
  unfold Mongo.sort. rewrite decide_False by done.
  apply (StronglySorted_merge_sort _).
Qed.

Lemma sort_perm (dir : Z) (docs : list A) : Mongo.sort key dir docs ≡ₚ docs.
Proof.
  unfold Mongo.sort. destruct (decide (dir = 1%Z));
    apply merge_sort_Permutation.
Qed.

End Explore.

Lemma find_limit_most_recent (k : nat) (pool : list Post.doc) :
  most_recent k pool
    (Mongo.find_limit k (Mongo.sort Post.createdAt (-1) pool)).
Proof.
  unfold Mongo.find_limit.
  set (sorted := Mongo.sort Post.createdAt (-1) pool).
  assert (Hperm : sorted ≡ₚ pool) by apply sort_perm.
  assert (Hsorted : StronglySorted (Mongo.desc Post.createdAt)
                      (take k sorted ++ drop k sorted))
    by (rewrite take_drop; apply sort_desc_sorted).
  exists (drop k sorted). split; [by rewrite take_drop|].
  split; [by rewrite length_take, Hperm|].
  split; [by eapply StronglySorted_app_1_l|].
  intros x y Hx Hy.
  exact (StronglySorted_app_1_elem_of _ _ _ _ _ Hsorted Hx Hy).
Qed.

Lemma find_tag_elem (s : string) (c : Post.collection) (p : Post.doc) :
  p ∈ Mongo.find (Mongo.TagsIn [Js.Str s]) c ↔ p ∈ c ∧ s ∈ Post.tags p.
Proof.
  unfold Mongo.find. rewrite (list_elem_of_In (List.filter _ _) p), filter_In.
  rewrite <- list_elem_of_In. cbn.
  by rewrite orb_false_r, bool_decide_eq_true.
Qed.

Lemma find_absent_empty (c : Post.collection) :
  Mongo.find (Mongo.TagsIn [Js.Undefined]) c = [].
Proof. unfold Mongo.find. induction c as [|p c IH]; [done|]. by cbn. Qed.

(** With a tag given, the explore query answers with the ten most recent
    posts among those carrying the tag, newest first. *)
Lemma getPostData_tag (s : string) (db : Db) :
  ∃ found,
    getPostData (Js.Str s) db = Json found ∧
    most_recent 10 (Mongo.find (Mongo.TagsIn [Js.Str s]) (posts db)) found ∧
    ∀ p, p ∈ Mongo.find (Mongo.TagsIn [Js.Str s]) (posts db)
         ↔ p ∈ posts db ∧ s ∈ Post.tags p.
Proof.
  eexists. split; [reflexivity|].
  split; [apply find_limit_most_recent|]. intros p. apply find_tag_elem.
Qed.

(** With no tag given the parameter is [undefined], which is not [null]:
    the query filters on it and finds nothing. *)
Lemma getPostData_no_tag (db : Db) : getPostData Js.Undefined db = Json [].
Proof.
  unfold getPostData. cbn [Js.strict_ne_null].
  rewrite find_absent_empty. reflexivity.
Qed.

(** C8. With no tag given on the sample database of three posts, the
    explore query answers with no post, while the ten most recent posts
    overall are the three posts, newest first (p2, p3, p1). *)
Theorem getPostData_no_tag_sample :
  getPostData Js.Undefined sampleDb = Json [] ∧
  most_recent 10 (posts sampleDb)
    [samplePost "p2" 30 ["coq"] [];
     samplePost "p3" 20 ["go"] ["u1"; "u2"; "u1"];
     samplePost "p1" 10 ["rust"; "coq"] ["u2"]].
Proof.
  split; [apply getPostData_no_tag|].
  apply (find_limit_most_recent 10 (posts sampleDb)).
Qed.

Lemma find_tag_filter (s : string) (c : list Post.doc) :
  Mongo.find (Mongo.TagsIn [Js.Str s]) c = filter (λ p, s ∈ Post.tags p) c.
Proof.
  unfold Mongo.find. induction c as [|p c IH]; [done|].
  cbn [List.filter]. cbn [Mongo.matches existsb Mongo.tag_matches].
  rewrite orb_false_r. case_bool_decide.
  - rewrite filter_cons_True by done. by rewrite IH.
  - by rewrite filter_cons_False.
Qed.

(** C10. Whatever the tag parameter, the explore query answers with
    success and a list of posts, never with its 404 or 204 error; for a
    tag string the list is the matching posts, that is the ten most
    recent of the stored posts carrying the tag (all of them when fewer),
    newest first: every post of the list is a stored post carrying the
    tag, and the list is empty when no stored post carries it. *)
Theorem getPostData_never_fails (postTag : Js.param) (db : Db) :
  ∃ found,
    getPostData postTag db = Json found ∧
    (∀ statusCode errorMessage,
       getPostData postTag db ≠ Error statusCode errorMessage) ∧
    (∀ s, postTag = Js.Str s →
       most_recent 10
         (filter (λ p, s ∈ Post.tags p) (posts db : list Post.doc)) found ∧
       (∀ p, p ∈ found → p ∈ posts db ∧ s ∈ Post.tags p) ∧
       ((∀ p, p ∈ posts db → s ∉ Post.tags p) → found = [])).
Proof.
  assert (Hjson : ∃ found, getPostData postTag db = Json found).
  { unfold getPostData. destruct (Js.strict_ne_null postTag); by eexists. }
  destruct Hjson as [found Hfound]. exists found.
  split; [done|]. split; [by rewrite Hfound|].
  intros s ->. destruct (getPostData_tag s db) as (found' & Heq & Hrec & Hel).
  rewrite Hfound in Heq. injection Heq as <-.
  assert (Hsub : ∀ p, p ∈ found → p ∈ posts db ∧ s ∈ Post.tags p).
  { destruct Hrec as (rest & Hperm & _).
    intros p Hp. apply Hel. rewrite <- Hperm. apply elem_of_app. by left. }
  split; [by rewrite <- find_tag_filter|].
  split; [done|]. intros Hnone.
  destruct found as [|p found]; [done|].
  destruct (Hsub p) as [Hp Hs]; [left|]. by destruct (Hnone p Hp).
Qed.

(** ** Small checks of the embedding *)

Example split_tags :
  Js.split Js.comma "a,b,,c" = ["a"; "b"; ""; "c"].
Proof. reflexivity. Qed.

Example split_empty : Js.split Js.comma "" = [""].
Proof. reflexivity. Qed.

Example split_trailing : Js.split Js.comma "a," = ["a"; ""].
Proof. reflexivity. Qed.

(** The first page of size 2, newest first, over the three sample posts:
    p2 and p3, total 3, and a next page. *)
Example getPosts_first_page :
  ∃ body,
    getPosts (mkSearchQuery (Some 0%Z) (Some 2%Z) (Some "desc")) sampleDb
      = Json body ∧
    map Feed._id (data body) = ["p2"; "p3"] ∧
    total body = Js.Num 3 ∧ hasNextPage body = true.
Proof. eexists. split; [vm_compute; reflexivity|]. done. Qed.

(** Ascending order gives the oldest first. *)
Example getPosts_ascending :
  ∃ body,
    getPosts (mkSearchQuery (Some 0%Z) (Some 2%Z) (Some "asc")) sampleDb
      = Json body ∧
    map Feed._id (data body) = ["p1"; "p3"].
Proof. eexists. split; [vm_compute; reflexivity|]. done. Qed.

(** A negative page index is rejected by the store. *)
Example getPosts_negative_start :
  getPosts (mkSearchQuery (Some (-1)%Z) (Some 2%Z) None) sampleDb = Rejected.
Proof. reflexivity. Qed.

(** The explore query on the tag "coq": p2, then p1. *)
Example getPostData_coq :
  ∃ found,
    getPostData (Js.Str "coq") sampleDb = Json found ∧
    map Post._id found = ["p2"; "p1"].
Proof. eexists. split; [vm_compute; reflexivity|]. done. Qed.

(** A [null] parameter, which the router never produces, would reach the
    branch without filter. *)
Example getPostData_null :
  ∃ found,
    getPostData Js.Null sampleDb = Json found ∧
    map Post._id found = ["p2"; "p3"; "p1"].
Proof. eexists. split; [vm_compute; reflexivity|]. done. Qed.

(** ** Worked instances on the sample database *)

(** Page 1 of size 2 over the three sample posts. *)
Lemma getPosts_page_sample :
  (0 ≤ 1)%Z ∧ (0 < 2)%Z ∧
  ∃ body,
    getPosts (mkSearchQuery (Some 1%Z) (Some 2%Z) (Some "desc")) sampleDb
      = Json body ∧
    (Z.of_nat (length (data body)) ≤ 2)%Z ∧
    total body = Js.Num (Z.of_nat (length (posts sampleDb))) ∧
    (hasNextPage body = true ↔
     (Z.of_nat (length (posts sampleDb)) > 1 * 2 + 2)%Z).
Proof.
  split; [lia|]. split; [lia|].
  apply (getPosts_page 1 2 (Some "desc") sampleDb); lia.
Defined.

(** User u1 toggles the like on p3, which lists u1 twice. *)
Lemma likePost_toggle_sample :
  Post.findById "p3" (posts sampleDb)
    = Some (samplePost "p3" 20 ["go"] ["u1"; "u2"; "u1"]) ∧
  ∃ db' post',
    likePost 99 "p3" "u1" sampleDb = (Json "Post Liked", db') ∧
    Post.findById "p3" (posts db') = Some post' ∧
    Post.likes post' =
      (if decide ("u1" ∈ ["u1"; "u2"; "u1"])
       then filter (λ x, x ≠ "u1") ["u1"; "u2"; "u1"]
       else ["u1"; "u2"; "u1"] ++ ["u1"]).
Proof.
  split; [reflexivity|].
  apply (likePost_toggle 99 "p3" "u1" sampleDb
           (samplePost "p3" 20 ["go"] ["u1"; "u2"; "u1"])).
  reflexivity.
Defined.

(** User u1 likes p2 twice. *)
Lemma likePost_twice_sample :
  Post.findById "p2" (posts sampleDb) = Some (samplePost "p2" 30 ["coq"] []) ∧
  ("u1" ∉ Post.likes (samplePost "p2" 30 ["coq"] [])) ∧
  ∃ db1 db2 post2,
    likePost 98 "p2" "u1" sampleDb = (Json "Post Liked", db1) ∧
    likePost 99 "p2" "u1" db1 = (Json "Post Liked", db2) ∧
    Post.findById "p2" (posts db2) = Some post2 ∧
    Post.likes post2 = Post.likes (samplePost "p2" 30 ["coq"] []).
Proof.
  split; [reflexivity|]. split; [apply not_elem_of_nil|].
  apply (likePost_twice_restores 98 99 "p2" "u1" sampleDb
           (samplePost "p2" 30 ["coq"] [])).
  - reflexivity.
  - apply not_elem_of_nil.
Defined.

(** An edit of p1 that gives no text, an image and four tags: the text
    stays. *)
Lemma editPost_sample :
  Post.findById "p1" (posts sampleDb)
    = Some (samplePost "p1" 10 ["rust"; "coq"] ["u2"]) ∧
  ∃ db' post',
    editPost 99 "p1" (mkEditBody None (Some "x.png") "a,b,,c") sampleDb
      = (Json "Post edited", db') ∧
    Post.findById "p1" (posts db') = Some post' ∧
    Post.textContent post' = Some "hello" ∧
    Post.imageContent post' = Some "x.png" ∧
    Post.tags post' = Js.split Js.comma "a,b,,c" ∧
    Post.likes post' = ["u2"] ∧
    Post.comments post' = [].
Proof.
  split; [reflexivity|].
  apply (editPost_replaces 99 "p1" (mkEditBody None (Some "x.png") "a,b,,c")
           sampleDb (samplePost "p1" 10 ["rust"; "coq"] ["u2"])).
  reflexivity.
Defined.

(** User u2 comments on p1. *)
Lemma commentPost_sample :
  Post.findById "p1" (posts sampleDb)
    = Some (samplePost "p1" 10 ["rust"; "coq"] ["u2"]) ∧
  ∃ db' post',
    commentPost 99 "p1" "u2" "nice" sampleDb = (Json "Commented on post", db') ∧
    Post.findById "p1" (posts db') = Some post' ∧
    Post.comments post' = [] ++ [mkComment "u2" "nice"].
Proof.
  split; [reflexivity|].
  apply (commentPost_appends 99 "p1" "u2" "nice" sampleDb
           (samplePost "p1" 10 ["rust"; "coq"] ["u2"])).
  reflexivity.
Defined.

(** User u2, without connections, adds and removes u1. *)
Lemma add_remove_connection_sample :
  User.findById "u2" (users sampleDb) = Some (sampleUser "u2" []) ∧
  ("u1" ∉ User.connections (sampleUser "u2" [])) ∧
  ∃ db1 db2 user2,
    addUserSocialConnections "u2" "u1" sampleDb
      = (Json "User added to your connections list", db1) ∧
    removeUserSocialConnections "u2" "u1" db1
      = (Json "User removed from your connections list", db2) ∧
    User.findById "u2" (users db2) = Some user2 ∧
    User.connections user2 = User.connections (sampleUser "u2" []).
Proof.
  split; [reflexivity|]. split; [apply not_elem_of_nil|].
  apply (add_remove_connection_restores "u2" "u1" sampleDb (sampleUser "u2" [])).
  - reflexivity.
  - apply not_elem_of_nil.
Defined.

(** No sample post has the id p9. *)
Lemma missing_post_sample :
  Post.findById "p9" (posts sampleDb) = None ∧
  likePost 99 "p9" "u1" sampleDb = (Error 404 "Post not found", sampleDb) ∧
  commentPost 99 "p9" "u1" "nice" sampleDb
    = (Error 404 "Post not found", sampleDb) ∧
  editPost 99 "p9" (mkEditBody None None "a") sampleDb
    = (Error 404 "Post not found", sampleDb).
Proof.
  split; [reflexivity|].
  apply (missing_post_not_found 99 "p9" "u1" "nice" (mkEditBody None None "a")
           sampleDb).
  reflexivity.
Defined.

(** ** Further properties: connections *)

Lemma User_findById_replace_ne (id id' : string) (v : list string)
    (c : User.collection) :
  id' ≠ id → User.findById id' (User.replace id v c) = User.findById id' c.
Proof.
  intros Hne. induction c as [|x c IH]; cbn [User.findById User.replace];
    [done|].
  destruct (decide (User._id x = id)) as [Hx|Hx];
    cbn [User.findById User.setConnections User._id].
  - rewrite !decide_False by congruence. done.
  - by rewrite IH.
Qed.

Lemma User_replace_ids (id : string) (v : list string) (c : User.collection) :
  map User._id (User.replace id v c) = map User._id c.
Proof.
  induction c as [|x c IH]; cbn [User.replace map]; [done|].
  destruct (decide (User._id x = id)); cbn [map]; [done|]. by rewrite IH.
Qed.

Lemma filter_ne_absent (u : string) (arr : list string) :
  u ∉ filter (λ x, x ≠ u) arr.
Proof. rewrite list_elem_of_filter. by intros [? _]. Qed.

Lemma filter_ne_idemp (u : string) (arr : list string) :
  filter (λ x, x ≠ u) (filter (λ x, x ≠ u) arr) = filter (λ x, x ≠ u) arr.
Proof.
  induction arr as [|x arr IH]; [done|].
  destruct (decide (x ≠ u)).
  - rewrite (filter_cons_True _ x arr) by done.
    rewrite filter_cons_True by done. by rewrite IH.
  - by rewrite filter_cons_False.
Qed.

(** X1. Reading the connections after an addition shows the former
    connections followed by the added id. *)
Theorem connections_after_add (userId otherUserId : string) (db : Db)
    (user : User.doc) :
  User.findById userId (users db) = Some user →
  getUserSocialConnections userId db = Json (User.connections user) ∧
  getUserSocialConnections userId
    (addUserSocialConnections userId otherUserId db).2
  = Json (User.connections user ++ [otherUserId]).
Proof.
  intros Huser. split.
  - unfold getUserSocialConnections. by rewrite Huser.
  - rewrite (addUserSocialConnections_found _ _ _ Huser). cbn [snd].
    unfold getUserSocialConnections. cbn [users].
    by rewrite (connections_read_back _ _ _ Huser).
Qed.

Lemma connections_after_add_sample :
  User.findById "u1" (users sampleDb) = Some (sampleUser "u1" ["u2"]) ∧
  getUserSocialConnections "u1" sampleDb = Json ["u2"] ∧
  getUserSocialConnections "u1"
    (addUserSocialConnections "u1" "u2" sampleDb).2
  = Json (["u2"] ++ ["u2"]).
Proof.
  split; [reflexivity|].
  apply (connections_after_add "u1" "u2" sampleDb (sampleUser "u1" ["u2"])).
  reflexivity.
Defined.

(** X2. When the user id resolves to no user, reading, adding and removing
    connections each end with status 404 and "User not found", on an
    unchanged database. *)
Theorem missing_user_not_found (userId otherUserId : string) (db : Db) :
  User.findById userId (users db) = None →
  getUserSocialConnections userId db = Error 404 "User not found" ∧
  addUserSocialConnections userId otherUserId db
    = (Error 404 "User not found", db) ∧
  removeUserSocialConnections userId otherUserId db
    = (Error 404 "User not found", db).
Proof.
  intros Hnone.
  unfold getUserSocialConnections, addUserSocialConnections,
    removeUserSocialConnections.
  by rewrite Hnone.
Qed.

Lemma missing_user_sample :
  User.findById "u9" (users sampleDb) = None ∧
  getUserSocialConnections "u9" sampleDb = Error 404 "User not found" ∧
  addUserSocialConnections "u9" "u1" sampleDb
    = (Error 404 "User not found", sampleDb) ∧
  removeUserSocialConnections "u9" "u1" sampleDb
    = (Error 404 "User not found", sampleDb).
Proof.
  split; [reflexivity|].
  apply (missing_user_not_found "u9" "u1" sampleDb). reflexivity.
Defined.

(** X3. Removal drops every occurrence of the target and nothing else: the
    target is no longer a connection, the other connections keep their
    order and multiplicity, and a second removal changes nothing. *)
Theorem remove_connection_all (userId otherUserId : string) (db : Db)
    (user : User.doc) :
  User.findById userId (users db) = Some user →
  ∃ db1 user1,
    removeUserSocialConnections userId otherUserId db
      = (Json "User removed from your connections list", db1) ∧
    User.findById userId (users db1) = Some user1 ∧
    (otherUserId ∉ User.connections user1) ∧
    User.connections user1 `sublist_of` User.connections user ∧
    (∀ v, v ≠ otherUserId →
       filter (λ x, x = v) (User.connections user1)
       = filter (λ x, x = v) (User.connections user)) ∧
    ∃ db2 user2,
      removeUserSocialConnections userId otherUserId db1
        = (Json "User removed from your connections list", db2) ∧
      User.findById userId (users db2) = Some user2 ∧
      User.connections user2 = User.connections user1.
Proof.
  intros Huser.
  pose proof (removeUserSocialConnections_found _ _ _ Huser otherUserId) as H1.
  eexists _, _. split; [exact H1|].
  pose proof (connections_read_back _ _ _ Huser
                (filter (λ x, x ≠ otherUserId) (User.connections user)))
    as Huser1.
  split; [exact Huser1|]. cbn [User.connections User.setConnections].
  split; [apply filter_ne_absent|].
  split; [apply sublist_filter|].
  split.
  { intros v Hv. rewrite list_filter_filter. apply list_filter_iff.
    intros x. split; [by intros [? _]|]. intros ->. done. }
  match type of H1 with _ = (_, ?d) => set (db1 := d) in * end.
  change (User.replace userId
            (filter (λ x, x ≠ otherUserId) (User.connections user))
            (users db)) with (users db1) in Huser1.
  eexists _, _.
  split; [exact (removeUserSocialConnections_found _ _ _ Huser1 otherUserId)|].
  split; [exact (connections_read_back _ _ _ Huser1 _)|].
  cbn [User.connections User.setConnections]. apply filter_ne_idemp.
Qed.

Lemma remove_connection_all_sample :
  User.findById "u1" (users sampleDb) = Some (sampleUser "u1" ["u2"]) ∧
  ∃ db1 user1,
    removeUserSocialConnections "u1" "u2" sampleDb
      = (Json "User removed from your connections list", db1) ∧
    User.findById "u1" (users db1) = Some user1 ∧
    ("u2" ∉ User.connections user1) ∧
    User.connections user1 `sublist_of` ["u2"] ∧
    (∀ v, v ≠ "u2" →
       filter (λ x, x = v) (User.connections user1)
       = filter (λ x, x = v) ["u2"]) ∧
    ∃ db2 user2,
      removeUserSocialConnections "u1" "u2" db1
        = (Json "User removed from your connections list", db2) ∧
      User.findById "u1" (users db2) = Some user2 ∧
      User.connections user2 = User.connections user1.
Proof.
  split; [reflexivity|].
  apply (remove_connection_all "u1" "u2" sampleDb (sampleUser "u1" ["u2"])).
  reflexivity.
Defined.

(** X4. Addition does not look for the target among the connections: after
    an addition and a removal of the same target the user is left with
    the former connections without any occurrence of the target, so a
    target that was already connected is disconnected. *)
Theorem add_remove_connection_general (userId otherUserId : string)
    (db : Db) (user : User.doc) :
  User.findById userId (users db) = Some user →
  ∃ db1 db2 user2,
    addUserSocialConnections userId otherUserId db
      = (Json "User added to your connections list", db1) ∧
    removeUserSocialConnections userId otherUserId db1
      = (Json "User removed from your connections list", db2) ∧
    User.findById userId (users db2) = Some user2 ∧
    User.connections user2
      = filter (λ x, x ≠ otherUserId) (User.connections user).
Proof.
  intros Huser.
  pose proof (addUserSocialConnections_found _ _ _ Huser otherUserId) as H1.
  eexists _, _, _. split; [exact H1|].
  match type of H1 with _ = (_, ?d) => set (db1 := d) end.
  pose proof (connections_read_back _ _ _ Huser
                (User.connections user ++ [otherUserId])) as Huser1.
  change (User.replace userId (User.connections user ++ [otherUserId])
            (users db)) with (users db1) in Huser1.
  split; [exact (removeUserSocialConnections_found _ _ _ Huser1 otherUserId)|].
  split; [exact (connections_read_back _ _ _ Huser1 _)|].
  cbn [User.connections User.setConnections].
  rewrite filter_app, filter_cons_False, filter_nil, app_nil_r; [done|].
  by intros ?.
Qed.

Lemma add_remove_connection_general_sample :
  User.findById "u1" (users sampleDb) = Some (sampleUser "u1" ["u2"]) ∧
  ∃ db1 db2 user2,
    addUserSocialConnections "u1" "u2" sampleDb
      = (Json "User added to your connections list", db1) ∧
    removeUserSocialConnections "u1" "u2" db1
      = (Json "User removed from your connections list", db2) ∧
    User.findById "u1" (users db2) = Some user2 ∧
    User.connections user2 = filter (λ x, x ≠ "u2") ["u2"].
Proof.
  split; [reflexivity|].
  apply (add_remove_connection_general "u1" "u2" sampleDb
           (sampleUser "u1" ["u2"])).
  reflexivity.
Defined.

(** X5. Adding or removing a connection touches nothing but the connections
    of the addressed user: the posts, the ids of the users and every
    other user stay as they are, and the addressed user keeps name,
    email and image. *)
Theorem connection_updates_frame (userId otherUserId : string) (db : Db) :
  same_outside_user userId db
    (addUserSocialConnections userId otherUserId db).2 ∧
  same_outside_user userId db
    (removeUserSocialConnections userId otherUserId db).2 ∧
  ∀ db' user user',
    db' = (addUserSocialConnections userId otherUserId db).2 ∨
    db' = (removeUserSocialConnections userId otherUserId db).2 →
    User.findById userId (users db) = Some user →
    User.findById userId (users db') = Some user' →
    User.firstName user' = User.firstName user ∧
    User.lastName user' = User.lastName user ∧
    User.email user' = User.email user ∧
    User.imageUrl user' = User.imageUrl user.
Proof.
  assert (Hframe : ∀ v, same_outside_user userId db
                          (mkDb (posts db) (User.replace userId v (users db)))).
  { intros v. split; [done|]. split; [apply User_replace_ids|].
    intros id Hid. by apply User_findById_replace_ne. }
  assert (Hsame : same_outside_user userId db db) by (by split).
  destruct (User.findById userId (users db)) as [user|] eqn:Huser.
  - rewrite (addUserSocialConnections_found _ _ _ Huser),
      (removeUserSocialConnections_found _ _ _ Huser).
    cbn [snd]. split; [apply Hframe|]. split; [apply Hframe|].
    intros db' u u' Hdb' [= <-] Hu'.
    destruct Hdb' as [-> | ->]; cbn [users] in Hu';
      rewrite (connections_read_back _ _ _ Huser) in Hu';
      by injection Hu' as <-.
  - unfold addUserSocialConnections, removeUserSocialConnections.
    rewrite Huser. cbn [snd]. by repeat split.
Qed.

Lemma connection_updates_frame_sample :
  same_outside_user "u1" sampleDb
    (addUserSocialConnections "u1" "u9" sampleDb).2 ∧
  same_outside_user "u1" sampleDb
    (removeUserSocialConnections "u1" "u2" sampleDb).2 ∧
  User.findById "u2" (users (addUserSocialConnections "u1" "u9" sampleDb).2)
    = Some (sampleUser "u2" []).
Proof.
  destruct (connection_updates_frame "u1" "u9" sampleDb) as (Hadd & _ & _).
  destruct (connection_updates_frame "u1" "u2" sampleDb) as (_ & Hrem & _).
  split; [exact Hadd|]. split; [exact Hrem|].
  destruct Hadd as (_ & _ & Hother). by rewrite Hother.
Defined.

(** ** Further properties: post mutations *)

Lemma Post_replace_ids (id : string) (now : Z) (upd : list Post.assignment)
    (c : Post.collection) :
  map Post._id (Post.replace id now upd c) = map Post._id c.
Proof.
  induction c as [|x c IH]; cbn [Post.replace map]; [done|].
  destruct (decide (Post._id x = id)); cbn [map].
  - by rewrite Post_apply_id.
  - by rewrite IH.
Qed.

Lemma replace_same_outside (postId : string) (now : Z)
    (upd : list Post.assignment) (db : Db) :
  same_outside postId db
    (mkDb (Post.replace postId now upd (posts db)) (users db)).
Proof.
  split; [done|]. split; [apply Post_replace_ids|].
  intros id Hid. by apply Post_findById_replace_ne.
Qed.

(** X6. Like, comment and edit touch nothing but the addressed post: the
    users, the ids of the posts and their order, and every other post
    stay as they are, whether or not the addressed post exists. *)
Theorem post_mutations_frame (now : Z) (postId userId comment : string)
    (body : EditBody) (db : Db) :
  same_outside postId db (likePost now postId userId db).2 ∧
  same_outside postId db (commentPost now postId userId comment db).2 ∧
  same_outside postId db (editPost now postId body db).2.
Proof.
  destruct (Post.findById postId (posts db)) as [post|] eqn:Hpost.
  - rewrite (likePost_found _ _ _ _ Hpost), (commentPost_found _ _ _ _ Hpost),
      (editPost_found _ _ _ _ Hpost).
    cbn [snd]. repeat split; try apply Post_replace_ids;
      intros id Hid; by apply Post_findById_replace_ne.
  - unfold likePost, commentPost, editPost. rewrite Hpost. cbn [snd].
    by repeat split.
Qed.

Lemma post_mutations_frame_sample :
  same_outside "p3" sampleDb (likePost 99 "p3" "u1" sampleDb).2 ∧
  same_outside "p3" sampleDb (commentPost 99 "p3" "u1" "nice" sampleDb).2 ∧
  same_outside "p3" sampleDb
    (editPost 99 "p3" (mkEditBody None None "a") sampleDb).2 ∧
  Post.findById "p1" (posts (likePost 99 "p3" "u1" sampleDb).2)
    = Some (samplePost "p1" 10 ["rust"; "coq"] ["u2"]).
Proof.
  destruct (post_mutations_frame 99 "p3" "u1" "nice" (mkEditBody None None "a")
              sampleDb) as (Hl & Hc & He).
  split; [exact Hl|]. split; [exact Hc|]. split; [exact He|].
  destruct Hl as (_ & _ & Hother). by rewrite Hother.
Defined.

(** X7. A like toggle changes only the likes of the post, and a comment only
    its comments: author, text, image, tags, donatable flag and creation
    time stay, a like keeps the comments and a comment keeps the likes. *)
Theorem like_comment_keep_fields (now : Z) (postId userId comment : string)
    (db : Db) (post : Post.doc) :
  Post.findById postId (posts db) = Some post →
  ∃ liked commented,
    Post.findById postId (posts (likePost now postId userId db).2)
      = Some liked ∧
    Post.findById postId (posts (commentPost now postId userId comment db).2)
      = Some commented ∧
    Post.comments liked = Post.comments post ∧
    Post.likes commented = Post.likes post ∧
    Forall (λ post',
              Post._id post' = Post._id post ∧
              Post.userId post' = Post.userId post ∧
              Post.textContent post' = Post.textContent post ∧
              Post.imageContent post' = Post.imageContent post ∧
              Post.tags post' = Post.tags post ∧
              Post.donatable post' = Post.donatable post ∧
              Post.createdAt post' = Post.createdAt post)
           [liked; commented].
Proof.
  intros Hpost.
  rewrite (likePost_found _ _ _ _ Hpost), (commentPost_found _ _ _ _ Hpost).
  cbn [snd posts]. eexists _, _.
  split; [exact (read_back _ _ _ _ Hpost _)|].
  split; [exact (read_back _ _ _ _ Hpost _)|].
  split; [done|]. split; [done|].
  repeat constructor.
Qed.

Lemma like_comment_keep_fields_sample :
  Post.findById "p3" (posts sampleDb)
    = Some (samplePost "p3" 20 ["go"] ["u1"; "u2"; "u1"]) ∧
  ∃ liked commented,
    Post.findById "p3" (posts (likePost 99 "p3" "u1" sampleDb).2)
      = Some liked ∧
    Post.findById "p3" (posts (commentPost 99 "p3" "u1" "nice" sampleDb).2)
      = Some commented ∧
    Post.comments liked = [] ∧
    Post.likes commented = ["u1"; "u2"; "u1"] ∧
    Forall (λ post',
              Post._id post' = "p3" ∧
              Post.userId post' = "u1" ∧
              Post.textContent post' = Some "hello" ∧
              Post.imageContent post' = None ∧
              Post.tags post' = ["go"] ∧
              Post.donatable post' = false ∧
              Post.createdAt post' = 20%Z)
           [liked; commented].
Proof.
  split; [reflexivity|].
  apply (like_comment_keep_fields 99 "p3" "u1" "nice" sampleDb
           (samplePost "p3" 20 ["go"] ["u1"; "u2"; "u1"])).
  reflexivity.
Defined.

(** X8. A like toggle flips whether the caller is among the likes and leaves
    the other users' likes as they are, in order and multiplicity. *)
Theorem likePost_flips_membership (now : Z) (postId userId : string)
    (db : Db) (post : Post.doc) :
  Post.findById postId (posts db) = Some post →
  ∃ post',
    Post.findById postId (posts (likePost now postId userId db).2)
      = Some post' ∧
    (userId ∈ Post.likes post' ↔ userId ∉ Post.likes post) ∧
    filter (λ x, x ≠ userId) (Post.likes post')
      = filter (λ x, x ≠ userId) (Post.likes post).
Proof.
  intros Hpost. rewrite (likePost_found _ _ _ _ Hpost). cbn [snd posts].
  eexists. split; [exact (read_back _ _ _ _ Hpost _)|]. cbn.
  destruct (decide (userId ∈ Post.likes post)) as [Hin|Hin].
  - split; [|apply filter_ne_idemp].
    split; [intros H; by apply filter_ne_absent in H|done].
  - split.
    + split; [done|]. intros _. apply elem_of_app. right. left.
    + rewrite filter_app, filter_cons_False, filter_nil, app_nil_r; [done|].
      by intros ?.
Qed.

Lemma likePost_flips_membership_sample :
  Post.findById "p3" (posts sampleDb)
    = Some (samplePost "p3" 20 ["go"] ["u1"; "u2"; "u1"]) ∧
  ∃ post',
    Post.findById "p3" (posts (likePost 99 "p3" "u1" sampleDb).2)
      = Some post' ∧
    ("u1" ∈ Post.likes post' ↔ "u1" ∉ ["u1"; "u2"; "u1"]) ∧
    filter (λ x, x ≠ "u1") (Post.likes post')
      = filter (λ x, x ≠ "u1") ["u1"; "u2"; "u1"].
Proof.
  split; [reflexivity|].
  apply (likePost_flips_membership 99 "p3" "u1" sampleDb
           (samplePost "p3" 20 ["go"] ["u1"; "u2"; "u1"])).
  reflexivity.
Defined.

(** X9. Two like toggles by a user who is among the likes leave the likes as
    the former ones without the user, followed by the user once: the
    user's place in the sequence and any duplicate are not restored. *)
Theorem likePost_twice_when_liked (now1 now2 : Z) (postId userId : string)
    (db : Db) (post : Post.doc) :
  Post.findById postId (posts db) = Some post →
  userId ∈ Post.likes post →
  ∃ db1 db2 post2,
    likePost now1 postId userId db = (Json "Post Liked", db1) ∧
    likePost now2 postId userId db1 = (Json "Post Liked", db2) ∧
    Post.findById postId (posts db2) = Some post2 ∧
    Post.likes post2
      = filter (λ x, x ≠ userId) (Post.likes post) ++ [userId].
Proof.
  intros Hpost Hin.
  pose proof (likePost_found now1 postId db post Hpost userId) as H1.
  rewrite decide_True in H1 by done.
  eexists _, _, _. split; [exact H1|].
  match type of H1 with _ = (_, ?d) => set (db1 := d) end.
  pose proof (read_back now1 _ _ _ Hpost
                [Post.SetLikes (filter (λ x, x ≠ userId) (Post.likes post))])
    as Hpost1.
  change (Post.replace postId now1
            [Post.SetLikes (filter (λ x, x ≠ userId) (Post.likes post))]
            (posts db)) with (posts db1) in Hpost1.
  split; [exact (likePost_found now2 postId db1 _ Hpost1 userId)|].
  split; [exact (read_back _ _ _ _ Hpost1 _)|].
  cbn. rewrite decide_False; [done|]. apply filter_ne_absent.
Qed.

Lemma likePost_twice_when_liked_sample :
  Post.findById "p3" (posts sampleDb)
    = Some (samplePost "p3" 20 ["go"] ["u1"; "u2"; "u1"]) ∧
  "u1" ∈ Post.likes (samplePost "p3" 20 ["go"] ["u1"; "u2"; "u1"]) ∧
  ∃ db1 db2 post2,
    likePost 98 "p3" "u1" sampleDb = (Json "Post Liked", db1) ∧
    likePost 99 "p3" "u1" db1 = (Json "Post Liked", db2) ∧
    Post.findById "p3" (posts db2) = Some post2 ∧
    Post.likes post2 = filter (λ x, x ≠ "u1") ["u1"; "u2"; "u1"] ++ ["u1"].
Proof.
  split; [reflexivity|]. split; [left|].
  apply (likePost_twice_when_liked 98 99 "p3" "u1" sampleDb
           (samplePost "p3" 20 ["go"] ["u1"; "u2"; "u1"])).
  - reflexivity.
  - left.
Defined.

(** X10. Two comments in sequence are stored in the order of the calls, after
    the former comments. *)
Theorem commentPost_twice_in_order (now1 now2 : Z)
    (postId user1 comment1 user2 comment2 : string) (db : Db)
    (post : Post.doc) :
  Post.findById postId (posts db) = Some post →
  ∃ db1 db2 post2,
    commentPost now1 postId user1 comment1 db
      = (Json "Commented on post", db1) ∧
    commentPost now2 postId user2 comment2 db1
      = (Json "Commented on post", db2) ∧
    Post.findById postId (posts db2) = Some post2 ∧
    Post.comments post2
      = Post.comments post
        ++ [mkComment user1 comment1; mkComment user2 comment2].
Proof.
  intros Hpost.
  pose proof (commentPost_found now1 postId db post Hpost user1 comment1) as H1.
  eexists _, _, _. split; [exact H1|].
  match type of H1 with _ = (_, ?d) => set (db1 := d) end.
  pose proof (read_back now1 _ _ _ Hpost
                [Post.SetComments
                   (Post.comments post ++ [mkComment user1 comment1])])
    as Hpost1.
  change (Post.replace postId now1
            [Post.SetComments
               (Post.comments post ++ [mkComment user1 comment1])]
            (posts db)) with (posts db1) in Hpost1.
  split; [exact (commentPost_found now2 postId db1 _ Hpost1 user2 comment2)|].
  split; [exact (read_back _ _ _ _ Hpost1 _)|].
  cbn. by rewrite <- app_assoc.
Qed.

Lemma commentPost_twice_sample :
  Post.findById "p1" (posts sampleDb)
    = Some (samplePost "p1" 10 ["rust"; "coq"] ["u2"]) ∧
  ∃ db1 db2 post2,
    commentPost 98 "p1" "u1" "first" sampleDb
      = (Json "Commented on post", db1) ∧
    commentPost 99 "p1" "u2" "second" db1
      = (Json "Commented on post", db2) ∧
    Post.findById "p1" (posts db2) = Some post2 ∧
    Post.comments post2
      = [] ++ [mkComment "u1" "first"; mkComment "u2" "second"].
Proof.
  split; [reflexivity|].
  apply (commentPost_twice_in_order 98 99 "p1" "u1" "first" "u2" "second"
           sampleDb (samplePost "p1" 10 ["rust"; "coq"] ["u2"])).
  reflexivity.
Defined.

(** X11. None of the five mutations ever ends with its own status 500: each
    ends with its success message or with status 404, because an update
    resolves to a result object, which is truthy. *)
Theorem mutations_never_500 (now : Z) (postId userId comment other : string)
    (body : EditBody) (db : Db) :
  (likePost now postId userId db).1
    ∈ [Json "Post Liked"; Error 404 "Post not found"] ∧
  (commentPost now postId userId comment db).1
    ∈ [Json "Commented on post"; Error 404 "Post not found"] ∧
  (editPost now postId body db).1
    ∈ [Json "Post edited"; Error 404 "Post not found"] ∧
  (addUserSocialConnections userId other db).1
    ∈ [Json "User added to your connections list";
       Error 404 "User not found"] ∧
  (removeUserSocialConnections userId other db).1
    ∈ [Json "User removed from your connections list";
       Error 404 "User not found"].
Proof.
  assert (Hposts :
    (likePost now postId userId db).1
      ∈ [Json "Post Liked"; Error 404 "Post not found"] ∧
    (commentPost now postId userId comment db).1
      ∈ [Json "Commented on post"; Error 404 "Post not found"] ∧
    (editPost now postId body db).1
      ∈ [Json "Post edited"; Error 404 "Post not found"]).
  { destruct (Post.findById postId (posts db)) as [post|] eqn:Hpost.
    - rewrite (likePost_found _ _ _ _ Hpost),
        (commentPost_found _ _ _ _ Hpost), (editPost_found _ _ _ _ Hpost).
      cbn [fst]. repeat split; left.
    - unfold likePost, commentPost, editPost. rewrite Hpost. cbn [fst].
      repeat split; right; left. }
  destruct Hposts as (Hl & Hc & He).
  split; [exact Hl|]. split; [exact Hc|]. split; [exact He|].
  destruct (User.findById userId (users db)) as [user|] eqn:Huser.
  - rewrite (addUserSocialConnections_found _ _ _ Huser),
      (removeUserSocialConnections_found _ _ _ Huser).
    cbn [fst]. split; left.
  - unfold addUserSocialConnections, removeUserSocialConnections.
    rewrite Huser. cbn [fst]. split; right; left.
Qed.

(** ** Further properties: tag lists *)

Section Split.
Variable sep : Ascii.ascii.

Lemma split_nonempty (s : string) : Js.split sep s ≠ [].
Proof.
  destruct s as [|c r]; cbn [Js.split]; [done|].
  destruct (decide (c = sep)); [done|]. by destruct (Js.split sep r).
Qed.

(** Joining the pieces with the separator gives the string back. *)
Lemma split_concat (s : string) :
  String.concat (String sep EmptyString) (Js.split sep s) = s.
Proof.
  induction s as [|c r IH]; cbn [Js.split]; [done|].
  pose proof (split_nonempty r) as Hne.
  destruct (Js.split sep r) as [|h t] eqn:Hr; [done|].
  destruct (decide (c = sep)) as [->|Hc].
  - cbn [String.concat]. cbn [String.append]. by rewrite <- IH.
  - rewrite <- IH. cbn [String.concat]. by destruct t.
Qed.

(** No piece contains the separator. *)
Lemma split_free (s : string) : Forall (free_of sep) (Js.split sep s).
Proof.
  induction s as [|c r IH]; cbn [Js.split].
  - constructor; [|constructor]. unfold free_of. cbn. apply not_elem_of_nil.
  - destruct (decide (c = sep)) as [->|Hc].
    + constructor; [|done]. unfold free_of. cbn. apply not_elem_of_nil.
    + destruct (Js.split sep r) as [|h t].
      * constructor; [|constructor]. unfold free_of. cbn.
        intros [?|H]%elem_of_cons; [done|]. by apply not_elem_of_nil in H.
      * apply Forall_cons in IH as [Hh Ht]. constructor; [|done].
        unfold free_of in *. cbn.
        intros [?|H]%elem_of_cons; [done|]. by apply Hh.
Qed.

End Split.

(** X12. The tags an edit stores are the pieces of the body's tag string
    between its commas: there is at least one, none contains a comma,
    and joined with commas they give the tag string back. *)
Theorem editPost_tags_roundtrip (now : Z) (postId : string) (body : EditBody)
    (db : Db) (post : Post.doc) :
  Post.findById postId (posts db) = Some post →
  ∃ post',
    Post.findById postId (posts (editPost now postId body db).2) = Some post' ∧
    String.concat "," (Post.tags post') = tags body ∧
    Post.tags post' ≠ [] ∧
    Forall (free_of Js.comma) (Post.tags post').
Proof.
  intros Hpost. rewrite (editPost_found _ _ _ _ Hpost). cbn [snd posts].
  eexists. split; [exact (read_back _ _ _ _ Hpost _)|]. cbn.
  split; [apply (split_concat Js.comma)|].
  split; [apply split_nonempty|apply split_free].
Qed.

Lemma editPost_tags_roundtrip_sample :
  Post.findById "p1" (posts sampleDb)
    = Some (samplePost "p1" 10 ["rust"; "coq"] ["u2"]) ∧
  ∃ post',
    Post.findById "p1"
      (posts (editPost 99 "p1" (mkEditBody None None "a,b,,c") sampleDb).2)
      = Some post' ∧
    String.concat "," (Post.tags post') = "a,b,,c" ∧
    Post.tags post' ≠ [] ∧
    Forall (free_of Js.comma) (Post.tags post').
Proof.
  split; [reflexivity|].
  apply (editPost_tags_roundtrip 99 "p1" (mkEditBody None None "a,b,,c")
           sampleDb (samplePost "p1" 10 ["rust"; "coq"] ["u2"])).
  reflexivity.
Defined.

(** ** Further properties: the feed *)

Section FeedOrder.
Context {A : Type} (key : A → Z).

#[global] Instance asc_transitive : Transitive (Mongo.asc key).
Proof. unfold Mongo.asc. intros x y z ??. lia. Qed.

#[global] Instance asc_total : Total (Mongo.asc key).
Proof. unfold Mongo.asc. intros x y. lia. Qed.

Lemma sort_asc_sorted (docs : list A) :
  StronglySorted (Mongo.asc key) (Mongo.sort key 1 docs).
Proof.
  unfold Mongo.sort. rewrite decide_True by done.
  apply (StronglySorted_merge_sort _).
Qed.

Lemma page_sorted (R : relation A) (skip take_ : nat) (docs : list A) :
  StronglySorted R docs → StronglySorted R (take take_ (drop skip docs)).
Proof.
  intros Hs. rewrite <- (take_drop skip docs) in Hs.
  apply StronglySorted_app_1_r in Hs.
  rewrite <- (take_drop take_ (drop skip docs)) in Hs.
  by apply StronglySorted_app_1_l in Hs.
Qed.

End FeedOrder.

(** The response of the feed for a page index [s ≥ 0] and a page size
    [l ≥ 1], written out. *)
Lemma getPosts_valid (s l : Z) (ord : option string) (db : Db) :
  (0 ≤ s)%Z → (0 < l)%Z →
  getPosts (mkSearchQuery (Some s) (Some l) ord) db
  = Json (mkFeedBody
            (take (Z.to_nat l)
               (drop (Z.to_nat (s * l))
                  (Mongo.sort Feed.createdAt (feed_dir ord) (feed_rows db))))
            (mkSearchQuery (Some s) (Some l) ord)
            (bool_decide (s * l + l < Z.of_nat (length (posts db)))%Z)
            (Js.Num (Z.of_nat (length (posts db))))).
Proof.
  intros Hs Hl. unfold getPosts. cbn [start limit order].
  rewrite or_default_page, or_default_limit by done.
  unfold Feed.aggregate, Feed.posts_facet, Mongo.skip, Mongo.limit.
  rewrite decide_True by lia. cbn [mbind option_bind].
  rewrite decide_True by lia. cbn [mbind option_bind].
  by rewrite total_is_count.
Qed.

Lemma feed_rows_elem (db : Db) (r : Feed.row) :
  r ∈ feed_rows db →
  ∃ p, p ∈ posts db ∧
    ((r = Feed.project (p, None) ∧
      ∀ u, u ∈ users db → User._id u ≠ Post.userId p) ∨
     (∃ u, u ∈ users db ∧ User._id u = Post.userId p ∧
           r = Feed.project (p, Some u))).
Proof.
  unfold feed_rows. rewrite list_elem_of_In, in_map_iff.
  intros (j & <- & Hj). apply in_concat in Hj as (js & Hjs & Hj).
  apply in_map_iff in Hjs as (pl & <- & Hpl).
  apply in_map_iff in Hpl as (p & <- & Hp).
  apply list_elem_of_In in Hp. unfold Feed.unwind, Feed.lookup in Hj.
  cbn [fst snd] in Hj.
  destruct (List.filter _ (users db)) as [|u0 us] eqn:Hf.
  - destruct Hj as [<-|[]]. exists p. split; [done|]. left. split; [done|].
    intros u Hu Hid. apply list_elem_of_In in Hu.
    assert (Hin : In u (List.filter
                          (λ u, bool_decide (User._id u = Post.userId p))
                          (users db)))
      by (apply filter_In; split; [done|by apply bool_decide_eq_true]).
    by rewrite Hf in Hin.
  - apply in_map_iff in Hj as (u & <- & Hu). rewrite <- Hf in Hu.
    apply filter_In in Hu as [Hu Hid]. apply bool_decide_eq_true in Hid.
    exists p. split; [done|]. right. exists u. by rewrite list_elem_of_In.
Qed.

(** X13. Every row of a feed page comes from a stored post, whose id, text,
    image, likes, tags and comments it shows; its author fields are
    those of a stored user whose id is the post's author id, and the row
    is without user exactly when no stored user has that id. *)
Theorem getPosts_rows_from_store (s l : Z) (ord : option string) (db : Db) :
  (0 ≤ s)%Z → (0 < l)%Z →
  ∃ body,
    getPosts (mkSearchQuery (Some s) (Some l) ord) db = Json body ∧
    ∀ r, r ∈ data body →
      ∃ p, p ∈ posts db ∧
        Feed._id r = Post._id p ∧
        Feed.textContent r = Post.textContent p ∧
        Feed.imageContent r = Post.imageContent p ∧
        Feed.likes r = Post.likes p ∧
        Feed.tags r = Post.tags p ∧
        Feed.comments r = Post.comments p ∧
        match Feed.user r with
        | Some a => ∃ u, u ∈ users db ∧ User._id u = Post.userId p ∧
                         a = Feed.project_user u
        | None => ∀ u, u ∈ users db → User._id u ≠ Post.userId p
        end.
Proof.
  intros Hs Hl. eexists. split; [by apply getPosts_valid|].
  cbn [data]. intros r Hr.
  apply subseteq_take, subseteq_drop in Hr.
  rewrite sort_perm in Hr.
  apply feed_rows_elem in Hr as (p & Hp & [[-> Hnone] | (u & Hu & Hid & ->)]).
  - exists p. by repeat split.
  - exists p. repeat split; [done|]. cbn. by exists u.
Qed.

Lemma getPosts_rows_from_store_sample :
  (0 ≤ 0)%Z ∧ (0 < 2)%Z ∧
  ∃ body,
    getPosts (mkSearchQuery (Some 0%Z) (Some 2%Z) None) sampleDb = Json body ∧
    ∀ r, r ∈ data body →
      ∃ p, p ∈ posts sampleDb ∧
        Feed._id r = Post._id p ∧
        Feed.textContent r = Post.textContent p ∧
        Feed.imageContent r = Post.imageContent p ∧
        Feed.likes r = Post.likes p ∧
        Feed.tags r = Post.tags p ∧
        Feed.comments r = Post.comments p ∧
        match Feed.user r with
        | Some a => ∃ u, u ∈ users sampleDb ∧ User._id u = Post.userId p ∧
                         a = Feed.project_user u
        | None => ∀ u, u ∈ users sampleDb → User._id u ≠ Post.userId p
        end.
Proof.
  split; [lia|]. split; [lia|].
  apply (getPosts_rows_from_store 0 2 None sampleDb); lia.
Defined.

(** X14. The rows of a feed page are in order of creation time: oldest first
    when [order] is "asc", newest first for every other value of [order]
    and when it is missing. *)
Theorem getPosts_sorted (s l : Z) (ord : option string) (db : Db) :
  (0 ≤ s)%Z → (0 < l)%Z →
  ∃ body,
    getPosts (mkSearchQuery (Some s) (Some l) ord) db = Json body ∧
    (ord = Some "asc" →
     StronglySorted (Mongo.asc Feed.createdAt) (data body)) ∧
    (ord ≠ Some "asc" →
     StronglySorted (Mongo.desc Feed.createdAt) (data body)).
Proof.
  intros Hs Hl. eexists. split; [by apply getPosts_valid|].
  cbn [data]. unfold feed_dir. split; intros Hord.
  - rewrite decide_True by done. apply page_sorted, sort_asc_sorted.
  - rewrite decide_False by done. apply page_sorted, sort_desc_sorted.
Qed.

Lemma getPosts_sorted_sample :
  (0 ≤ 0)%Z ∧ (0 < 2)%Z ∧
  ∃ body,
    getPosts (mkSearchQuery (Some 0%Z) (Some 2%Z) (Some "ASC")) sampleDb
      = Json body ∧
    (Some "ASC" = Some "asc" →
     StronglySorted (Mongo.asc Feed.createdAt) (data body)) ∧
    (Some "ASC" ≠ Some "asc" →
     StronglySorted (Mongo.desc Feed.createdAt) (data body)).
Proof.
  split; [lia|]. split; [lia|].
  apply (getPosts_sorted 0 2 (Some "ASC") sampleDb); lia.
Defined.

(** With user ids unique, the lookup of an author finds what
    [User.findById] finds, and each post gives one row. *)
Lemma lookup_unique (us : User.collection) (x : string) :
  NoDup (map User._id us) →
  List.filter (λ u, bool_decide (User._id u = x)) us
  = option_list (User.findById x us).
Proof.
  induction us as [|u us IH]; cbn [map List.filter User.findById]; [done|].
  intros [Hu Hnd]%NoDup_cons. case_bool_decide as Hx.
  - rewrite decide_True by done. cbn [option_list]. f_equal.
    clear IH Hnd. induction us as [|v us IH]; [done|].
    cbn [map] in Hu. apply not_elem_of_cons in Hu as [Hv Hu].
    cbn [List.filter]. rewrite bool_decide_false by congruence. by apply IH.
  - rewrite decide_False by done. by apply IH.
Qed.

Lemma feed_rows_unique (db : Db) :
  NoDup (map User._id (users db)) →
  feed_rows db = map (joined_row (users db)) (posts db).
Proof.
  intros Hnd. unfold feed_rows.
  induction (posts db) as [|p ps IH]; [done|].
  cbn [map concat]. rewrite map_app, IH. cbn [map].
  unfold Feed.unwind at 1, Feed.lookup at 1. cbn [fst snd].
  rewrite lookup_unique by done. unfold joined_row.
  destruct (User.findById (Post.userId p) (users db)); reflexivity.
Qed.

Lemma feed_rows_length (db : Db) :
  NoDup (map User._id (users db)) → length (feed_rows db) = length (posts db).
Proof. intros Hnd. by rewrite feed_rows_unique, length_map. Qed.

(** X15. With user ids unique, a feed page holds exactly the posts left after
    the skipped pages, up to the page size, and [hasNextPage] is true
    exactly when the following page has a row. *)
Theorem getPosts_next_page (s l : Z) (ord : option string) (db : Db) :
  (0 ≤ s)%Z → (0 < l)%Z →
  NoDup (map User._id (users db)) →
  ∃ body next,
    getPosts (mkSearchQuery (Some s) (Some l) ord) db = Json body ∧
    getPosts (mkSearchQuery (Some (s + 1)%Z) (Some l) ord) db = Json next ∧
    length (data body)
      = Nat.min (Z.to_nat l) (length (posts db) - Z.to_nat (s * l)) ∧
    (hasNextPage body = true ↔ data next ≠ []).
Proof.
  intros Hs Hl Hnd. eexists _, _.
  split; [by apply getPosts_valid|].
  split; [apply getPosts_valid; lia|].
  cbn [data hasNextPage].
  assert (Hlen : ∀ k, length (take (Z.to_nat l)
                     (drop k (Mongo.sort Feed.createdAt (feed_dir ord)
                                (feed_rows db))))
                 = Nat.min (Z.to_nat l) (length (posts db) - k)).
  { intros k. by rewrite length_take, length_drop, sort_perm,
      feed_rows_length. }
  split; [apply Hlen|].
  rewrite bool_decide_eq_true, <- length_zero_iff_nil, Hlen. nia.
Qed.

Lemma getPosts_next_page_sample :
  (0 ≤ 0)%Z ∧ (0 < 2)%Z ∧
  NoDup (map User._id (users sampleDb)) ∧
  ∃ body next,
    getPosts (mkSearchQuery (Some 0%Z) (Some 2%Z) None) sampleDb = Json body ∧
    getPosts (mkSearchQuery (Some (0 + 1)%Z) (Some 2%Z) None) sampleDb
      = Json next ∧
    length (data body)
      = Nat.min (Z.to_nat 2) (length (posts sampleDb) - Z.to_nat (0 * 2)) ∧
    (hasNextPage body = true ↔ data next ≠ []).
Proof.
  assert (Hnd : NoDup (map User._id (users sampleDb))).
  { apply (bool_decide_unpack _). vm_compute. exact I. }
  split; [lia|]. split; [lia|]. split; [exact Hnd|].
  apply (getPosts_next_page 0 2 None sampleDb); [lia|lia|exact Hnd].
Defined.

(** X16. With user ids unique, a first page at least as large as the
    collection shows every post exactly once, joined with the user
    stored under its author id or without user when there is none, and
    announces no further page. *)
Theorem getPosts_whole_feed (l : Z) (ord : option string) (db : Db) :
  (0 < l)%Z → (Z.of_nat (length (posts db)) ≤ l)%Z →
  NoDup (map User._id (users db)) →
  ∃ body,
    getPosts (mkSearchQuery (Some 0%Z) (Some l) ord) db = Json body ∧
    data body ≡ₚ map (joined_row (users db)) (posts db) ∧
    hasNextPage body = false.
Proof.
  intros Hl Hall Hnd. eexists. split; [apply getPosts_valid; lia|].
  cbn [data hasNextPage]. split.
  - change (Z.to_nat (0 * l)) with 0%nat. rewrite drop_0, take_ge.
    + by rewrite sort_perm, feed_rows_unique.
    + rewrite sort_perm, feed_rows_length by done. lia.
  - apply bool_decide_eq_false. lia.
Qed.

Lemma getPosts_whole_feed_sample :
  (0 < 5)%Z ∧ (Z.of_nat (length (posts sampleDb)) ≤ 5)%Z ∧
  NoDup (map User._id (users sampleDb)) ∧
  ∃ body,
    getPosts (mkSearchQuery (Some 0%Z) (Some 5%Z) None) sampleDb = Json body ∧
    data body ≡ₚ map (joined_row (users sampleDb)) (posts sampleDb) ∧
    hasNextPage body = false.
Proof.
  assert (Hnd : NoDup (map User._id (users sampleDb))).
  { apply (bool_decide_unpack _). vm_compute. exact I. }
  split; [lia|]. split; [cbn; lia|]. split; [exact Hnd|].
  apply (getPosts_whole_feed 5 None sampleDb); [lia|cbn; lia|exact Hnd].
Defined.

(** ** Further properties: the explore query with a tag *)

(** X18. With a tag string given, the explore query answers with the posts
    carrying the tag that are the ten most recent of them (all of them
    when fewer), newest first. *)
Theorem getPostData_tag_most_recent (s : string) (db : Db) :
  ∃ found,
    getPostData (Js.Str s) db = Json found ∧
    most_recent 10
      (filter (λ p, s ∈ Post.tags p) (posts db : list Post.doc)) found ∧
    (length found ≤ 10)%nat.
Proof.
  exists (Mongo.find_limit 10
            (Mongo.sort Post.createdAt (-1)
               (Mongo.find (Mongo.TagsIn [Js.Str s]) (posts db)))).
  split; [reflexivity|]. rewrite <- find_tag_filter.
  split; [apply find_limit_most_recent|].
  unfold Mongo.find_limit. rewrite length_take. lia.
Qed.

(** ** Further properties: post creation *)

Lemma Post_findById_snoc (id : string) (c : Post.collection) (d : Post.doc) :
  Post.findById id (c ++ [d])
  = match Post.findById id c with
    | Some x => Some x
    | None => if decide (Post._id d = id) then Some d else None
    end.
Proof.
  induction c as [|x c IH]; cbn [app Post.findById]; [done|].
  by destruct (decide (Post._id x = id)).
Qed.

Lemma postContent_fresh (newId : string) (now : Z) (donatableDefault : bool)
    (author : string) (body : EditBody) (db : Db) :
  Post.findById newId (posts db) = None →
  postContent newId now donatableDefault (Some author) body db
  = let post := Post.mk newId author (textContent body) (imageContent body)
                  (Js.split Js.comma (tags body)) [] [] donatableDefault
                  now now in
    (Json ("Content Posted", post), mkDb (posts db ++ [post]) (users db)).
Proof.
  intros Hfresh. unfold postContent, Post.create. by rewrite Hfresh.
Qed.

(** X19. Posting content as an authenticated user, under an id not yet
    stored, answers "Content Posted" with the new post: it has the
    caller as author, the body's text and image, the pieces of the tag
    string as tags, and no likes or comments; it is stored after the
    former posts, which all resolve as before, and the users stay. *)
Theorem postContent_stores (newId : string) (now : Z)
    (donatableDefault : bool) (author : string) (body : EditBody) (db : Db) :
  Post.findById newId (posts db) = None →
  ∃ post db',
    postContent newId now donatableDefault (Some author) body db
      = (Json ("Content Posted", post), db') ∧
    Post.findById newId (posts db') = Some post ∧
    Post.userId post = author ∧
    Post.textContent post = textContent body ∧
    Post.imageContent post = imageContent body ∧
    Post.tags post = Js.split Js.comma (tags body) ∧
    Post.likes post = [] ∧
    Post.comments post = [] ∧
    posts db' = posts db ++ [post] ∧
    users db' = users db ∧
    ∀ id p, Post.findById id (posts db) = Some p →
            Post.findById id (posts db') = Some p.
Proof.
  intros Hfresh. eexists _, _.
  split; [by apply postContent_fresh|]. cbn [posts users].
  split.
  { rewrite Post_findById_snoc, Hfresh. cbn [Post._id].
    by rewrite decide_True. }
  repeat split. intros id p Hp. by rewrite Post_findById_snoc, Hp.
Qed.

Lemma postContent_stores_sample :
  Post.findById "p4" (posts sampleDb) = None ∧
  ∃ post db',
    postContent "p4" 40 false (Some "u2") (mkEditBody (Some "hi") None "a,b")
      sampleDb
      = (Json ("Content Posted", post), db') ∧
    Post.findById "p4" (posts db') = Some post ∧
    Post.userId post = "u2" ∧
    Post.textContent post = Some "hi" ∧
    Post.imageContent post = None ∧
    Post.tags post = Js.split Js.comma "a,b" ∧
    Post.likes post = [] ∧
    Post.comments post = [] ∧
    posts db' = posts sampleDb ++ [post] ∧
    users db' = users sampleDb ∧
    ∀ id p, Post.findById id (posts sampleDb) = Some p →
            Post.findById id (posts db') = Some p.
Proof.
  split; [reflexivity|].
  apply (postContent_stores "p4" 40 false "u2"
           (mkEditBody (Some "hi") None "a,b") sampleDb).
  reflexivity.
Defined.

(** X20. After a post is created, the feed counts one post more, and a first
    like on the new post succeeds and leaves the caller as its only
    like. *)
Theorem postContent_then_feed_and_like (newId : string) (now now' : Z)
    (donatableDefault : bool) (author liker : string) (body : EditBody)
    (s l : Z) (ord : option string) (db : Db) :
  Post.findById newId (posts db) = None →
  (0 ≤ s)%Z → (0 < l)%Z →
  ∃ db' before after db'' liked,
    (postContent newId now donatableDefault (Some author) body db).2 = db' ∧
    getPosts (mkSearchQuery (Some s) (Some l) ord) db = Json before ∧
    getPosts (mkSearchQuery (Some s) (Some l) ord) db' = Json after ∧
    total before = Js.Num (Z.of_nat (length (posts db))) ∧
    total after = Js.Num (Z.of_nat (length (posts db)) + 1) ∧
    likePost now' newId liker db' = (Json "Post Liked", db'') ∧
    Post.findById newId (posts db'') = Some liked ∧
    Post.likes liked = [liker].
Proof.
  intros Hfresh Hs Hl.
  rewrite (postContent_fresh _ _ _ _ _ _ Hfresh). cbn [snd].
  set (post := Post.mk newId author _ _ _ _ _ _ _ _).
  set (db' := mkDb (posts db ++ [post]) (users db)).
  assert (Hpost : Post.findById newId (posts db') = Some post).
  { cbn [db' posts]. rewrite Post_findById_snoc, Hfresh. cbn [post Post._id].
    by rewrite decide_True. }
  eexists db', _, _, _, _. split; [done|].
  split; [by apply getPosts_valid|]. split; [by apply getPosts_valid|].
  cbn [total]. split; [done|].
  split.
  { f_equal. cbn [db' posts]. rewrite length_app. cbn [length]. lia. }
  split; [exact (likePost_found now' newId db' post Hpost liker)|].
  split; [exact (read_back _ _ _ _ Hpost _)|].
  cbn. rewrite decide_False; [done|]. apply not_elem_of_nil.
Qed.

Lemma postContent_then_sample :
  Post.findById "p4" (posts sampleDb) = None ∧ (0 ≤ 0)%Z ∧ (0 < 2)%Z ∧
  ∃ db' before after db'' liked,
    (postContent "p4" 40 false (Some "u2") (mkEditBody (Some "hi") None "a,b")
       sampleDb).2 = db' ∧
    getPosts (mkSearchQuery (Some 0%Z) (Some 2%Z) None) sampleDb = Json before ∧
    getPosts (mkSearchQuery (Some 0%Z) (Some 2%Z) None) db' = Json after ∧
    total before = Js.Num (Z.of_nat (length (posts sampleDb))) ∧
    total after = Js.Num (Z.of_nat (length (posts sampleDb)) + 1) ∧
    likePost 41 "p4" "u1" db' = (Json "Post Liked", db'') ∧
    Post.findById "p4" (posts db'') = Some liked ∧
    Post.likes liked = ["u1"].
Proof.
  split; [reflexivity|]. split; [lia|]. split; [lia|].
  apply (postContent_then_feed_and_like "p4" 40 41 false "u2" "u1"
           (mkEditBody (Some "hi") None "a,b") 0 2 None sampleDb);
    [reflexivity|lia|lia].
Defined.

(** ** Further properties: the default page *)

(** X17. With [limit] missing or zero the feed answers, whatever [start] is,
    with the first ten rows in the requested order (all rows when there
    are fewer) and the number of posts as total. *)
Theorem getPosts_default_page (st li : option Z) (ord : option string)
    (db : Db) :
  li = None ∨ li = Some 0%Z →
  ∃ body,
    getPosts (mkSearchQuery st li ord) db = Json body ∧
    data body
      = take 10 (Mongo.sort Feed.createdAt (feed_dir ord) (feed_rows db)) ∧
    (length (data body) ≤ 10)%nat ∧
    total body = Js.Num (Z.of_nat (length (posts db))).
Proof.
  intros Hli.
  assert (Hskip : Js.or (Js.mul (Js.Number st) (Js.Number li)) (Js.Num 0)
                  = Js.Num 0).
  { destruct Hli as [-> | ->], st as [s|]; cbn [Js.Number Js.mul];
      rewrite ?Z.mul_0_r; reflexivity. }
  assert (Hlimit : Js.or (Js.Number li) (Js.Num 10) = Js.Num 10)
    by (by destruct Hli as [-> | ->]).
  unfold getPosts. cbn [start limit order]. rewrite Hskip, Hlimit.
  unfold Feed.aggregate, Feed.posts_facet, Mongo.skip, Mongo.limit.
  rewrite decide_True by lia. cbn [mbind option_bind].
  rewrite decide_True by lia. cbn [mbind option_bind].
  rewrite total_is_count. eexists. split; [done|]. cbn [data total].
  split; [done|]. split; [|done].
  change (Z.to_nat 10) with 10%nat. rewrite length_take. lia.
Qed.

Lemma getPosts_default_page_sample :
  (Some 0%Z = None ∨ Some 0%Z = Some 0%Z) ∧
  ∃ body,
    getPosts (mkSearchQuery (Some 7%Z) (Some 0%Z) None) elevenPosts
      = Json body ∧
    data body
      = take 10 (Mongo.sort Feed.createdAt (feed_dir None)
                   (feed_rows elevenPosts)) ∧
    (length (data body) ≤ 10)%nat ∧
    total body = Js.Num (Z.of_nat (length (posts elevenPosts))).
Proof.
  split; [by right|].
  apply (getPosts_default_page (Some 7%Z) (Some 0%Z) None elevenPosts).
  by right.
Defined.
